(** * uhu: package build-and-sync engine

    A shallow embedding of the object model ([uhu/core/_base.py]), of the
    push / pull protocol ([uhu/core/package.py]) and of the collaborators
    they rely on, together with the properties of the specification that
    are stated about them. *)

From Stdlib Require Import ZArith List String Ascii Lia Bool.
From Stdlib Require Import Init.Byte.
From stdpp Require Import base option list gmap strings.

Local Open Scope string_scope.
Local Open Scope Z_scope.
Local Open Scope list_scope.

(** Python [bytes] values. *)
Abbreviation bytes := (list byte).

(* ===================================================================== *)
(** ** [hashlib.sha256]: SHA-256 (FIPS 180-4) on 32-bit words held in [Z] *)
(* ===================================================================== *)

Module SHA256.

Definition w32 (x : Z) : Z := Z.land x 0xffffffff.
Definition add32 (x y : Z) : Z := w32 (x + y).
Definition rotr (n x : Z) : Z :=
  Z.lor (Z.shiftr x n) (w32 (Z.shiftl x (32 - n))).
Definition not32 (x : Z) : Z := Z.lxor x 0xffffffff.

Definition Ch (x y z : Z) := Z.lxor (Z.land x y) (Z.land (not32 x) z).
Definition Maj (x y z : Z) :=
  Z.lxor (Z.lxor (Z.land x y) (Z.land x z)) (Z.land y z).
Definition bsig0 x := Z.lxor (Z.lxor (rotr 2 x) (rotr 13 x)) (rotr 22 x).
Definition bsig1 x := Z.lxor (Z.lxor (rotr 6 x) (rotr 11 x)) (rotr 25 x).
Definition ssig0 x := Z.lxor (Z.lxor (rotr 7 x) (rotr 18 x)) (Z.shiftr x 3).
Definition ssig1 x := Z.lxor (Z.lxor (rotr 17 x) (rotr 19 x)) (Z.shiftr x 10).

(** The first 64 primes. *)
Definition is_prime (n : nat) : bool :=
  forallb (fun d => negb (Nat.eqb (n mod d) 0)) (seq 2 (n - 2)).

Definition primes : list Z :=
  map Z.of_nat (List.filter is_prime (seq 2 310)).

(** Largest [r] below [2 ^ bits] (plus [r]) with [r ^ 3 <= n]. *)
Fixpoint cube_root (bits : nat) (n r : Z) : Z :=
  match bits with
  | O => r
  | S bits' =>
      let r' := r + 2 ^ Z.of_nat bits' in
      cube_root bits' n (if r' * r' * r' <=? n then r' else r)
  end.

(** The constants: the first 32 bits of the fractional parts of the cube
    roots of the first 64 primes. *)
Definition K256 : list Z :=
  Eval vm_compute in map (fun p => w32 (cube_root 36 (p * 2 ^ 96) 0)) primes.

(** The eight working variables / the intermediate hash value. *)
Record regs := Regs { ra : Z; rb : Z; rc : Z; rd : Z;
                      re : Z; rf : Z; rg : Z; rh : Z }.

(** The first 32 bits of the fractional part of the square root of [p]. *)
Definition root_bits (p : Z) : Z := w32 (Z.sqrt (p * 2 ^ 64)).

(** The initial hash value: the square roots of the first 8 primes. *)
Definition init_regs : regs :=
  Eval vm_compute in
    Regs (root_bits 2) (root_bits 3) (root_bits 5) (root_bits 7)
         (root_bits 11) (root_bits 13) (root_bits 17) (root_bits 19).

Definition byteZ (b : byte) : Z := Z.of_N (Byte.to_N b).
Definition Zbyte (z : Z) : byte :=
  match Byte.of_N (Z.to_N (Z.land z 0xff)) with
  | Some b => b
  | None => x00
  end.

(** Big-endian encoding of [z] on [n] bytes. *)
Fixpoint be_bytes (n : nat) (z : Z) : bytes :=
  match n with
  | O => []
  | S n' => Zbyte (Z.shiftr z (8 * Z.of_nat n')) :: be_bytes n' z
  end.

Definition pad (msg : bytes) : bytes :=
  let len := Z.of_nat (length msg) in
  let k := (55 - len) mod 64 in
  msg ++ x80 :: repeat x00 (Z.to_nat k) ++ be_bytes 8 (8 * len).

(** The sixteen big-endian words of a 64-byte block. *)
Fixpoint words (n : nat) (bs : bytes) : list Z :=
  match n, bs with
  | S n', b0 :: b1 :: b2 :: b3 :: rest =>
      (Z.lor (Z.shiftl (byteZ b0) 24)
         (Z.lor (Z.shiftl (byteZ b1) 16)
            (Z.lor (Z.shiftl (byteZ b2) 8) (byteZ b3))))
      :: words n' rest
  | _, _ => []
  end.

(** Message schedule, kept most recent word first: [sched] holds
    W(t-1), W(t-2), ... *)
Fixpoint extend (n : nat) (sched : list Z) : list Z :=
  match n with
  | O => sched
  | S n' =>
      let wt := add32 (add32 (ssig1 (nth 1 sched 0)) (nth 6 sched 0))
                      (add32 (ssig0 (nth 14 sched 0)) (nth 15 sched 0)) in
      extend n' (wt :: sched)
  end.

Definition schedule (block : bytes) : list Z :=
  rev (extend 48 (rev (words 16 block))).

Definition round (r : regs) (kw : Z * Z) : regs :=
  let t1 := add32 (add32 (add32 (rh r) (bsig1 (re r)))
                         (add32 (Ch (re r) (rf r) (rg r)) (fst kw)))
                  (snd kw) in
  let t2 := add32 (bsig0 (ra r)) (Maj (ra r) (rb r) (rc r)) in
  Regs (add32 t1 t2) (ra r) (rb r) (rc r)
       (add32 (rd r) t1) (re r) (rf r) (rg r).

Definition compress (h : regs) (block : bytes) : regs :=
  let r := fold_left round (combine K256 (schedule block)) h in
  Regs (add32 (ra h) (ra r)) (add32 (rb h) (rb r))
       (add32 (rc h) (rc r)) (add32 (rd h) (rd r))
       (add32 (re h) (re r)) (add32 (rf h) (rf r))
       (add32 (rg h) (rg r)) (add32 (rh h) (rh r)).

Fixpoint blocks (n : nat) (h : regs) (bs : bytes) : regs :=
  match n with
  | O => h
  | S n' => blocks n' (compress h (firstn 64 bs)) (skipn 64 bs)
  end.

Definition digest (msg : bytes) : bytes :=
  let p := pad msg in
  let h := blocks (length p / 64) init_regs p in
  flat_map (be_bytes 4)
    [ra h; rb h; rc h; rd h; re h; rf h; rg h; rh h].

End SHA256.

(** Lower-case hexadecimal rendering, as [bytes.hex()] / [hexdigest()]. *)
Definition hex_digit (z : Z) : ascii :=
  if z <? 10 then ascii_of_N (Z.to_N (48 + z))
  else ascii_of_N (Z.to_N (87 + z)).

Fixpoint hex (bs : bytes) : string :=
  match bs with
  | [] => EmptyString
  | b :: rest =>
      let z := SHA256.byteZ b in
      String (hex_digit (Z.shiftr z 4))
        (String (hex_digit (Z.land z 15)) (hex rest))
  end.

(** The line feed of Python's ['\n']. *)
Definition newline : string := String (ascii_of_N 10) EmptyString.

(** [str.encode()] on the ASCII / Latin-1 range. *)
Definition encode (s : string) : bytes := list_byte_of_string s.

Definition sha256_hex (msg : bytes) : string := hex (SHA256.digest msg).

(* ===================================================================== *)
(** ** [hmac.new(key, msg, hashlib.sha256)] (RFC 2104) *)
(* ===================================================================== *)

Module HMAC.

Definition block_size : nat := 64.

Definition xor_byte (p : Z) (b : byte) : byte :=
  SHA256.Zbyte (Z.lxor p (SHA256.byteZ b)).

(** Keys longer than a block are hashed first, then the key is
    zero-padded to the block size. *)
Definition block_key (key : bytes) : bytes :=
  let k := if (block_size <? length key)%nat then SHA256.digest key
           else key in
  k ++ repeat x00 (block_size - length k).

Definition digest (key msg : bytes) : bytes :=
  let k := block_key key in
  SHA256.digest (map (xor_byte 0x5c) k
                 ++ SHA256.digest (map (xor_byte 0x36) k ++ msg)).

Definition hexdigest (key msg : bytes) : string := hex (digest key msg).

End HMAC.

(* ===================================================================== *)
(** ** Request signing, scheme [EFOTA-V1] *)
(* ===================================================================== *)

Module EFOTAV1Signature.

(** [datetime] in UTC, as the request carries it. *)
Record datetime := DateTime {
  year : Z; month : Z; day : Z; hour : Z; minute : Z; second : Z }.

(** What the signature reads from the request: its canonical
    representation, its date and its header mapping. *)
Record request := Request {
  canonical : string;
  date : datetime;
  headers : list (string * string) }.

Definition digit (z : Z) : ascii := ascii_of_N (Z.to_N (48 + z mod 10)).

(** [n] decimal digits of [z], zero padded (strftime's %Y, %m, %d ...). *)
Fixpoint digits (n : nat) (z : Z) : string :=
  match n with
  | O => EmptyString
  | S n' => digits n' (z / 10) +:+ String (digit z) EmptyString
  end.

(** [strftime('%Y%m%d')] *)
Definition datestamp (d : datetime) : string :=
  digits 4 (year d) +:+ digits 2 (month d) +:+ digits 2 (day d).

(** [strftime('%Y%m%dT%H%M%SZ')] *)
Definition timestamp (d : datetime) : string :=
  datestamp d +:+ "T" +:+ digits 2 (hour d) +:+ digits 2 (minute d)
  +:+ digits 2 (second d) +:+ "Z".

Definition lower_ascii (c : ascii) : ascii :=
  let n := N_of_ascii c in
  if ((65 <=? n) && (n <=? 90))%N then ascii_of_N (n + 32) else c.

Fixpoint lower (s : string) : string :=
  match s with
  | EmptyString => EmptyString
  | String c rest => String (lower_ascii c) (lower rest)
  end.

Fixpoint insert_sorted (x : string) (l : list string) : list string :=
  match l with
  | [] => [x]
  | y :: rest =>
      if String.leb x y then x :: l else y :: insert_sorted x rest
  end.

(** [sorted(...)] on strings. *)
Definition sorted (l : list string) : list string :=
  fold_right insert_sorted [] l.

Definition scheme : string := "EFOTA-V1".

(** Modelled from the spec: [efu/http/auth.py] is absent.  "hash the
    canonical string (SHA-256, hex)". *)
Definition hashed_canonical_request (r : request) : string :=
  sha256_hex (encode (canonical r)).

(** Modelled from the spec: "sorted ';'-joined lowercase header names". *)
Definition signed_headers (r : request) : string :=
  String.concat ";" (sorted (map (fun h => lower (fst h)) (headers r))).

(** Modelled from the spec: "a 3-line message of {scheme-id, request
    timestamp in strict YYYYMMDDTHHMMSSZ UTC form, canonical-request
    hash}". *)
Definition message (r : request) : string :=
  scheme +:+ newline +:+ timestamp (date r) +:+ newline
  +:+ hashed_canonical_request r.

Definition header_value (access_id : string) (r : request)
    (signature_hash : string) : string :=
  scheme +:+ " Credential=" +:+ access_id
  +:+ ", SignedHeaders=" +:+ signed_headers r
  +:+ ", Signature=" +:+ signature_hash.

(** *** The transform in the words of the specification *)

(** Modelled from the spec: "derive a signing key via a single
    HMAC-SHA256 step keyed by a shared secret, over the date-only
    portion (YYYYMMDD) of the timestamp". *)
Definition spec_key (secret : string) (r : request) : bytes :=
  HMAC.digest (encode secret) (encode (datestamp (date r))).

(** Modelled from the spec: "compute the final signature as
    HMAC-SHA256(signing key, message), hex-encoded".  The spec does not
    say whether the signing key is used as raw digest or as its
    hexadecimal text; [key_as_hex] selects the reading. *)
Definition spec_signature_hash (key_as_hex : bool) (secret : string)
    (r : request) : string :=
  let k := spec_key secret r in
  HMAC.hexdigest (if key_as_hex then encode (hex k) else k)
                 (encode (message r)).

Definition spec_signature (key_as_hex : bool) (access_id secret : string)
    (r : request) : string :=
  header_value access_id r (spec_signature_hash key_as_hex secret r).

(** *** The transform the test-suite pins down *)

(** Modelled from the spec: [efu/http/auth.py] is absent; the two points
    the spec leaves open are fixed by [tests/http_/test_auth.py]:
    [test_key] ("a hmac-sha256 hash in hexadecimal using EFOTA-V1-SECRET
    as key and 19700101 as message"): the HMAC key is the scheme id, a
    dash and the secret, and the signing key is the hexadecimal text. *)
Definition key (secret : string) (r : request) : string :=
  HMAC.hexdigest (encode (scheme +:+ "-" +:+ secret))
                 (encode (datestamp (date r))).

(** [test_signature_hash]: "a hmac-sha256 using as key the expected value
    from the test_key method and as message the expected value from the
    test_message method". *)
Definition signature_hash (secret : string) (r : request) : string :=
  HMAC.hexdigest (encode (key secret r)) (encode (message r)).

Definition signature (access_id secret : string) (r : request) : string :=
  header_value access_id r (signature_hash secret r).

(** The request of [EFOTAV1SignatureTestCase.setUp]. *)
Definition test_request : request :=
  Request "000" (DateTime 1970 1 1 0 0 0)
    [("foo", "bar"); ("Host", "localhost"); ("Timestamp", "0");
     ("bar", "foo")].

Definition expected_signature : string :=
  "EFOTA-V1 Credential=123ACCESSID, SignedHeaders=bar;foo;host;timestamp, Signature=d826360e77d1d35c16342aa3188529fefa37a63717acc391a8ccb2ec7dc053ca".

End EFOTAV1Signature.

(* ===================================================================== *)
(** ** Python values, exceptions and results *)
(* ===================================================================== *)

(** The values an option, a template or a metadata mapping may hold. *)
#[warnings="-register-all"]
Inductive value :=
| VNone
| VBool (b : bool)
| VInt (z : Z)
| VStr (s : string)
| VDict (d : list (string * value)).

Definition is_None (v : value) : bool :=
  match v with VNone => true | _ => false end.

(** [v == s] for a string literal [s]. *)
Definition str_eq (v : value) (s : string) : bool :=
  match v with VStr s' => String.eqb s' s | _ => false end.

(** [str(v)] as [str.format] renders it, for the values used in URLs. *)
Definition format_value (v : value) : string :=
  match v with
  | VStr s => s
  | VNone => "None"
  | VBool true => "True"
  | VBool false => "False"
  | _ => "?"
  end.

Inductive exn :=
| TypeError (msg : string)
| ValueError (msg : string)
| KeyError (key : string)
| AttributeError (msg : string)
| FileNotFoundError (fn : string)
| ZeroDivisionError
| OverflowError
| ConnectionError
| JSONDecodeError
| ValidationError (msg : string)
| UploadError (msg : string)
| DownloadError (msg : string).

Inductive result (A : Type) :=
| Ok (a : A)
| Raise (e : exn).
Arguments Ok {A} a.
Arguments Raise {A} e.

Notation "'let?' x ':=' m 'in' k" :=
  (match m with Ok x => k | Raise e => Raise e end)
  (at level 10, x name, m at level 100, k at level 200).

Fixpoint mapM {A B : Type} (f : A -> result B) (l : list A)
    : result (list B) :=
  match l with
  | [] => Ok []
  | a :: rest =>
      let? b := f a in
      let? bs := mapM f rest in
      Ok (b :: bs)
  end.

(* ===================================================================== *)
(** ** Options and object classes ([uhu/core/_base.py], lines 24-83) *)
(* ===================================================================== *)

(** An [Option] class of [uhu/core/_options.py] (absent), reduced to the
    attributes [_base.py] reads.  [validate] receives the object
    ([option.validate(value, self)], line 218); it is first called from
    [__init__] before [self._values] exists, so of the object it can only
    read class attributes: it is given the mode.  [None] stands for the
    [ValueError] it raises.  [VNone] as [opt_default] means no default. *)
Record Option := {
  metadata : string;
  volatile : bool;
  opt_default : value;
  validate : string -> value -> option value }.

(** Option classes are singletons registered under their metadata name:
    two of them are the same option when the names agree. *)
Definition same_option (a b : Option) : bool :=
  String.eqb (metadata a) (metadata b).

(** A class created by the metaclass [ObjectType]: [options] and
    [required_options] already hold [Option] classes (lines 65-67). *)
Record ObjectClass := {
  mode : string;
  allow_compression : bool;
  allow_install_condition : bool;
  options : list Option;
  required_options : list Option }.

(** The body of a class statement deriving from [BaseObject]. *)
Record ClassDecl := {
  decl_mode : string;
  decl_allow_compression : bool;
  decl_allow_install_condition : bool;
  decl_options : list string;
  decl_required_options : list string }.

(** [cls.is_required(option)]: [option in cls.required_options]. *)
Definition is_required (c : ObjectClass) (o : Option) : bool :=
  existsb (same_option o) (required_options c).

(** [option in self.options] *)
Definition declares (c : ObjectClass) (o : Option) : bool :=
  existsb (same_option o) (options c).

(** The object: its class, [self._values] (a dict keyed by [Option]
    classes, in insertion order), [self.chunk_size] and [self.md5]. *)
Record BaseObject := {
  cls : ObjectClass;
  _values : list (Option * value);
  chunk_size : Z;
  md5 : option string }.

Definition set_values (o : BaseObject) (vs : list (Option * value))
    : BaseObject :=
  {| cls := cls o; _values := vs; chunk_size := chunk_size o;
     md5 := md5 o |}.

Definition set_md5 (o : BaseObject) (h : option string) : BaseObject :=
  {| cls := cls o; _values := _values o; chunk_size := chunk_size o;
     md5 := h |}.

(** [d.get(option)] *)
Fixpoint dict_get (d : list (Option * value)) (o : Option) : value :=
  match d with
  | [] => VNone
  | (k, v) :: rest => if same_option k o then v else dict_get rest o
  end.

(** [d[option] = v]: an existing key keeps its place. *)
Fixpoint dict_set (d : list (Option * value)) (o : Option) (v : value)
    : list (Option * value) :=
  match d with
  | [] => [(o, v)]
  | (k, x) :: rest =>
      if same_option k o then (k, v) :: rest
      else (k, x) :: dict_set rest o v
  end.

(** [{opt.metadata: value for opt, value in d.items()}]; the keys of a
    dict are distinct, so the order of insertion does not matter. *)
Definition by_metadata (d : list (Option * value)) : gmap string value :=
  list_to_map (map (fun kv => (metadata (fst kv), snd kv)) d).

(** [d.pop(key)] *)
Definition pop (d : gmap string value) (key : string)
    : result (value * gmap string value) :=
  match d !! key with
  | Some v => Ok (v, delete key d)
  | None => Raise (KeyError key)
  end.

(* ===================================================================== *)
(** ** The outside world: files, the server, collaborators *)
(* ===================================================================== *)

(** What [Package.metadata()] hands to the schema validation and to the
    server. *)
Record PackageMetadata := {
  md_product : option string;
  md_version : option string;
  md_objects : list (list (gmap string value));
  md_supported_hardware : list (string * list string) }.

Inductive payload :=
| NoPayload
| MetadataPayload (m : PackageMetadata)     (* [json.dumps(metadata)] *)
| EtagPayload (etag : option string).       (* [{'etag': self.md5}] *)

(** A call that leaves the process. *)
Inductive request :=
| HTTP (method : string) (url : string) (body : payload)
    (* [Request(url, method, payload).send()] *)
| STORAGE (backend : string) (url : string) (chunks : list bytes)
    (* [STORAGES[backend](obj, url, callback)] *)
| FETCH (url : string).
    (* [requests.get(url, stream=True)] *)

(** The keys [_base.py] and [package.py] read from a JSON object, typed
    as the server's protocol has them: [errors] a list of strings, [uid],
    [storage] and [url] strings; each of them may be missing. *)
Record json_object := {
  json_errors : option (list string);
  json_uid : option string;
  json_storage : option string;
  json_url : option string }.

(** What [response.json()] does with the body of a response: it raises
    when the body is no JSON text, and returns the value decoded, which is
    an object or not. *)
Inductive decoded :=
| NotJSON
| NotObject
| Object (body : json_object).

(** A response: its status, its body as [response.json()] decodes it,
    its text and its raw content. *)
Record response := {
  status_code : Z;
  json : decoded;
  text : string;
  content : bytes }.

Inductive reply :=
| Unreachable                      (* [requests.exceptions.ConnectionError] *)
| Response (r : response).

(** [response.ok]: [raise_for_status()] raises for the statuses from 400
    to 599. *)
Definition ok (r : response) : bool :=
  negb ((400 <=? status_code r) && (status_code r <? 600)).

(** Local files, the requests issued so far (oldest first) and the
    server, which answers a request knowing the earlier ones. *)
Record World := {
  files : gmap string bytes;
  sent : list request;
  server : list request -> request -> reply }.

Definition log_request (w : World) (rq : request) : World :=
  {| files := files w; sent := sent w ++ [rq]; server := server w |}.

Definition write_file (w : World) (fn : string) (c : bytes) : World :=
  {| files := <[fn := c]> (files w); sent := sent w; server := server w |}.

(** The collaborators of [_base.py] and [package.py] whose code is not
    part of this development. *)
Class Externals := {
  (** [Options.registry] of [uhu/core/_options.py] *)
  Options_registry : list Option;
  (** [Modes.registry] (line 25), as the class statements of
      [uhu/core/objects.py] leave it *)
  Modes_registry : list ObjectClass;
  (** [uhu.utils.get_chunk_size()] *)
  get_chunk_size : Z;
  (** [math.ceil(a / b)] where [a / b] is a quotient of floats that
      cannot be told from the integers alone ([a] or [b] is 2^53 or more
      in absolute value) *)
  float_ceil : Z -> Z -> result Z;
  (** [sys.maxsize] *)
  maxsize : Z;
  (** [hashlib.md5(data).hexdigest()] *)
  md5_hexdigest : bytes -> string;
  (** [uhu.utils.get_compressor_format(fn)]: the name of the recognized
      container, or [None] *)
  get_compressor_format : gmap string bytes -> value -> option string;
  (** the per-format size readers behind
      [uhu.utils.get_uncompressed_size] *)
  container_size : string -> gmap string bytes -> value -> option Z;
  (** [uhu.core.install_condition.get_version(fn, type, pattern=, seek=,
      buffer_size=)] *)
  get_version : gmap string bytes -> value -> value
                -> option (bytes * value * value) -> result value;
  (** [pkgschema.validate_metadata(metadata)] *)
  validate_metadata : PackageMetadata -> result unit;
  (** [uhu.utils.get_server_url(path)] *)
  get_server_url : string -> string;
  (** the keys of [uhu.core.storages.STORAGES] *)
  STORAGES : list string }.

(* ===================================================================== *)
(** ** [BaseObject] ([uhu/core/_base.py], lines 73-246) *)
(* ===================================================================== *)

Section Object.
Context `{ext : Externals}.

(** [Options.get(name)]: the registered option, [ValueError] when there
    is none (the message is not part of [src]). *)
Definition Options_get (name : string) : result Option :=
  match find (fun o => String.eqb (metadata o) name) Options_registry with
  | Some o => Ok o
  | None => Raise (ValueError ("unknown option " +:+ name))
  end.

(** [ObjectType.__init__] (lines 41-70): the options a class declares are
    extended according to its flags and turned into [Option] classes.
    ([string_template], used by [__str__] only, is left out.) *)
Definition ObjectType_init (d : ClassDecl) : result ObjectClass :=
  let names :=
    decl_options d
    ++ (if decl_allow_compression d
        then ["compressed"; "required-uncompressed-size"] else [])
    ++ (if decl_allow_install_condition d
        then ["install-condition"; "install-condition-version";
              "install-condition-pattern-type"; "install-condition-pattern";
              "install-condition-seek"; "install-condition-buffer-size"]
        else []) in
  let? opts := mapM Options_get names in
  let? required := mapM Options_get (decl_required_options d) in
  Ok {| mode := decl_mode d;
        allow_compression := decl_allow_compression d;
        allow_install_condition := decl_allow_install_condition d;
        options := opts;
        required_options := required |}.

(** The value one option resolves to: the proposed value, else the
    default; [None] when the option stays unset. *)
Definition resolve (c : ObjectClass) (values : gmap string value)
    (o : Option) : result (option value) :=
  let given := default VNone (values !! metadata o) in
  let v := if is_None given then opt_default o else given in
  if is_None v then
    if is_required c o
    then Raise (ValueError (metadata o +:+ " is required"))
    else Ok None
  else
    match validate o (mode c) v with
    | Some v' => Ok (Some v')
    | None => Raise (ValueError (metadata o +:+ " is not valid"))
    end.

Fixpoint resolve_all (c : ObjectClass) (values : gmap string value)
    (opts : list Option) : result (list (Option * value)) :=
  match opts with
  | [] => Ok []
  | o :: rest =>
      let? r := resolve c values o in
      let? rs := resolve_all c values rest in
      Ok (match r with Some v => (o, v) :: rs | None => rs end)
  end.

(** Modelled from the spec: [uhu/core/validators.py] is absent.
    "validate_options(object, proposed_values) fails with an error
    identifying the first missing required option or the first option
    failing its own type/value validator, and returns the fully resolved
    value mapping"; "a mode's object accepts only options declared for
    that mode - assigning any other key fails".  Options that resolve to
    no value are not part of the mapping (the metadata expected by
    [test_can_generate_metadata] holds no [None]).  The error messages are
    not the source's. *)
Definition validate_options (c : ObjectClass) (values : gmap string value)
    : result (list (Option * value)) :=
  if bool_decide (map_Forall
       (fun k _ => existsb (fun o => String.eqb (metadata o) k) (options c)
                   = true) values)
  then resolve_all c values (options c)
  else Raise (ValueError (mode c +:+ " does not support an option")).

(** [BaseObject.__init__] (lines 85-88) *)
Definition BaseObject_init (c : ObjectClass) (values : gmap string value)
    : result BaseObject :=
  let? vs := validate_options c values in
  Ok {| cls := c; _values := vs; chunk_size := get_chunk_size;
        md5 := None |}.

(** [BaseObject.template] (lines 90-95) *)
Definition template (o : BaseObject) : gmap string value :=
  <["mode" := VStr (mode (cls o))]>
    (by_metadata (filter (fun kv => volatile (fst kv) = false) (_values o))).

(** [BaseObject.__getitem__] (lines 226-236); keys are strings here. *)
Definition __getitem__ (o : BaseObject) (key : string) : result value :=
  match Options_get key with
  | Raise _ => Raise (TypeError "You must provide a registered option")
  | Ok option =>
      if declares (cls o) option
      then Ok (dict_get (_values o) option)
      else Raise (ValueError (mode (cls o) +:+ " does not support "
                              +:+ metadata option))
  end.

(** [BaseObject.__setitem__] (lines 212-224).  The assignment of line 218
    is kept when the validation of line 224 fails. *)
Definition __setitem__ (o : BaseObject) (key : string) (v : value)
    : result unit * BaseObject :=
  match Options_get key with
  | Raise _ => (Raise (TypeError "You must provide a registered option"), o)
  | Ok option =>
      match validate option (mode (cls o)) v with
      | None => (Raise (TypeError "You must provide a valid value."), o)
      | Some v' =>
          let o1 := set_values o (dict_set (_values o) option v') in
          let values := <[key := v]> (by_metadata (_values o1)) in
          match validate_options (cls o1) values with
          | Ok vs => (Ok tt, set_values o1 vs)
          | Raise e => (Raise e, o1)
          end
      end
  end.

(** [BaseObject.update] (lines 157-159) *)
Definition update (o : BaseObject) (key : string) (v : value)
    : result unit * BaseObject :=
  __setitem__ o key v.

(** [BaseObject.filename] (lines 142-145) *)
Definition filename (o : BaseObject) : result value :=
  __getitem__ o "filename".

(** [open(fn, 'br')] followed by reading, and [os.path.getsize(fn)]. *)
Definition read_file (fs : gmap string bytes) (fn : value) : result bytes :=
  match fn with
  | VStr name =>
      match fs !! name with
      | Some c => Ok c
      | None => Raise (FileNotFoundError name)
      end
  | _ => Raise (TypeError "expected str, bytes or os.PathLike object")
  end.

(** [BaseObject.size] (lines 147-150) *)
Definition size (o : BaseObject) (fs : gmap string bytes) : result Z :=
  let? fn := filename o in
  let? c := read_file fs fn in
  Ok (Z.of_nat (length c)).

(** [BaseObject.exists] (lines 152-155) *)
Definition exists_ (o : BaseObject) (fs : gmap string bytes) : result bool :=
  let? fn := filename o in
  match fn with
  | VStr name => Ok (bool_decide (is_Some (fs !! name)))
  | _ => Raise (TypeError "stat: path should be string")
  end.

(** Successive [fp.read(n)] for a positive [n], until [b''] comes back. *)
Fixpoint read_chunks (fuel : nat) (n : nat) (data : bytes) : list bytes :=
  match fuel with
  | O => []
  | S fuel' =>
      match data with
      | [] => []
      | _ => take n data :: read_chunks fuel' n (drop n data)
      end
  end.

(** [iter(lambda: fp.read(chunk_size), b'')] on a file opened with
    ['br']: a size below -1 is refused by [read] ([ValueError]), the size
    -1 reads all that is left at once, a zero size reads [b''] at once. *)
Definition iter_chunks (n : Z) (data : bytes) : result (list bytes) :=
  if n <? -1 then Raise (ValueError "read length must be non-negative or -1")
  else if n =? -1 then Ok (match data with [] => [] | _ => [data] end)
  else if n =? 0 then Ok []
  else Ok (read_chunks (length data) (Z.to_nat n) data).

(** [BaseObject.__iter__] (lines 242-246) *)
Definition __iter__ (o : BaseObject) (fs : gmap string bytes)
    : result (list bytes) :=
  let? fn := filename o in
  let? c := read_file fs fn in
  iter_chunks (chunk_size o) c.

(** [math.ceil(a / b)] for [b <> 0].  The quotient of two integers is
    the nearest float; when both are below 2^53 in absolute value the
    ceiling of that float is the ceiling of the exact quotient, otherwise
    the result is [float_ceil]'s. *)
Definition ceil_quotient (a b : Z) : result Z :=
  if (Z.abs a <? 2 ^ 53) && (Z.abs b <? 2 ^ 53)
  then Ok (- ((- a) / b))
  else float_ceil a b.

(** [BaseObject.__len__] (lines 238-240): [math.ceil(size / chunk_size)] *)
Definition __len__ (o : BaseObject) (fs : gmap string bytes) : result Z :=
  let? sz := size o fs in
  if chunk_size o =? 0 then Raise ZeroDivisionError
  else ceil_quotient sz (chunk_size o).

(** [len(self)]: the builtin refuses a negative length and one above
    [sys.maxsize]. *)
Definition len (o : BaseObject) (fs : gmap string bytes) : result Z :=
  let? n := __len__ o fs in
  if n <? 0 then Raise (ValueError "__len__() should return >= 0")
  else if maxsize <? n then Raise OverflowError
  else Ok n.

(** A [hashlib] object is the data it was fed: [update] appends. *)
Definition hash_update (fed chunk : bytes) : bytes := fed ++ chunk.

(** [BaseObject.load] (lines 161-171), without callback. *)
Definition load (o : BaseObject) (fs : gmap string bytes)
    : result unit * BaseObject :=
  match __iter__ o fs with
  | Raise e => (Raise e, o)
  | Ok chunks =>
      let sha256sum := fold_left hash_update chunks [] in
      let md5_ := fold_left hash_update chunks [] in
      match __setitem__ o "sha256sum" (VStr (sha256_hex sha256sum)) with
      | (Raise e, o1) => (Raise e, o1)
      | (Ok _, o1) =>
          match size o1 fs with
          | Raise e => (Raise e, o1)
          | Ok sz =>
              match __setitem__ o1 "size" (VInt sz) with
              | (Raise e, o2) => (Raise e, o2)
              | (Ok _, o2) => (Ok tt, set_md5 o2 (Some (md5_hexdigest md5_)))
              end
          end
      end
  end.

(** [BaseObject._metadata_install_condition] (lines 105-132) *)
Definition _metadata_install_condition (o : BaseObject)
    (fs : gmap string bytes) (metadata : gmap string value)
    : result (gmap string value) :=
  if negb (allow_install_condition (cls o)) then Ok metadata
  else
    let? p := pop metadata "install-condition" in
    let condition := fst p in
    let metadata := snd p in
    if str_eq condition "content-diverges" then
      Ok (<["install-if-different" := VStr "sha256sum"]> metadata)
    else if str_eq condition "version-diverges" then
      let? p := pop metadata "install-condition-pattern-type" in
      let backend := fst p in
      let metadata := snd p in
      if str_eq backend "linux-kernel" || str_eq backend "u-boot" then
        let? fn := filename o in
        let? version := get_version fs fn backend None in
        Ok (<["install-if-different" :=
                VDict [("version", version); ("pattern", backend)]]> metadata)
      else
        let? p := pop metadata "install-condition-pattern" in
        let regexp := fst p in
        let? p := pop (snd p) "install-condition-seek" in
        let seek := fst p in
        let? p := pop (snd p) "install-condition-buffer-size" in
        let buffer_size := fst p in
        let metadata := snd p in
        let? fn := filename o in
        match regexp with
        | VStr re =>
            let? version :=
              get_version fs fn backend
                (Some (encode re, seek, buffer_size)) in
            Ok (<["install-if-different" :=
                    VDict [("version", version);
                           ("pattern",
                            VDict [("regexp", regexp); ("seek", seek);
                                   ("buffer-size", buffer_size)])]]>
                  metadata)
        | _ => Raise (AttributeError "object has no attribute 'encode'")
        end
    else Ok metadata.

(** Modelled from the spec: [uhu.utils.get_uncompressed_size] is absent.
    "an uncompressed file reports no compression keys at all"; "for formats
    without a reliable fast-path, size is left unset rather than guessed":
    without a recognized container there is no size, with one the size is
    what the reader of that format finds. *)
Definition get_uncompressed_size (fs : gmap string bytes) (fn : value)
    (compressor : option string) : option Z :=
  match compressor with
  | None => None
  | Some format => container_size format fs fn
  end.

(** [BaseObject._metadata_compression] (lines 134-140) *)
Definition _metadata_compression (o : BaseObject) (fs : gmap string bytes)
    (metadata : gmap string value) : result (gmap string value) :=
  if allow_compression (cls o) then
    let? fn := __getitem__ o "filename" in
    let compressor := get_compressor_format fs fn in
    match get_uncompressed_size fs fn compressor with
    | Some sz =>
        Ok (<["required-uncompressed-size" := VInt sz]>
              (<["compressed" := VBool true]> metadata))
    | None => Ok metadata
    end
  else Ok metadata.

(** [BaseObject.metadata] (lines 97-103) *)
Definition metadata_ (o : BaseObject) (fs : gmap string bytes)
    : result (gmap string value) * BaseObject :=
  match load o fs with
  | (Raise e, o1) => (Raise e, o1)
  | (Ok _, o1) =>
      let metadata := by_metadata (_values o1) in
      let metadata := <["mode" := VStr (mode (cls o1))]> metadata in
      (let? metadata := _metadata_install_condition o1 fs metadata in
       _metadata_compression o1 fs metadata,
       o1)
  end.

End Object.

(* ===================================================================== *)
(** ** Transfers of one object ([uhu/core/_base.py], lines 173-210) *)
(* ===================================================================== *)

(** [ObjectUploadResult] of [uhu/core/upload.py] *)
Inductive ObjectUploadResult := SUCCESS | EXISTS | FAIL.

(** Modelled from the spec: [uhu/core/upload.py] is absent.  "response
    200 means the object already exists server-side (skip transfer, signal
    progress as if fully transferred)"; "if any object's transfer does not
    complete successfully, the whole push is reported as failed". *)
Definition is_ok (r : ObjectUploadResult) : bool :=
  match r with
  | SUCCESS | EXISTS => true
  | FAIL => false
  end.

(** ['{}'.format(uid)] *)
Definition format_uid (uid : option string) : string :=
  match uid with Some u => u | None => "None" end.

(** [Request(...).send()]: the request leaves the process, the server
    answers. *)
Definition send (w : World) (rq : request) : result response * World :=
  match server w (sent w) rq with
  | Unreachable => (Raise ConnectionError, log_request w rq)
  | Response r => (Ok r, log_request w rq)
  end.

Section Transfers.
Context `{ext : Externals}.

(** Modelled from the spec: [uhu/core/storages.py] is absent.  "upload to
    storage-backend URL returned above (2xx=success)": the object's chunk
    stream is sent to the backend, and the transfer succeeded when the
    answer is a 2xx. *)
Definition storage_upload (backend : string) (o : BaseObject) (url : string)
    (w : World) : result bool * World :=
  match __iter__ o (files w) with
  | Raise e => (Raise e, w)
  | Ok chunks =>
      let rq := STORAGE backend url chunks in
      match server w (sent w) rq with
      | Unreachable => (Ok false, log_request w rq)
      | Response r =>
          (Ok ((200 <=? status_code r) && (status_code r <? 300)),
           log_request w rq)
      end
  end.

(** [BaseObject.upload] (lines 173-195), without callback; the argument
    [len(self)] of line 182 is evaluated all the same.  The body is
    decoded on the 201 branch (line 184) and on the last one (line 192). *)
Definition upload (o : BaseObject) (package_uid : option string) (w : World)
    : result ObjectUploadResult * World :=
  match __getitem__ o "sha256sum" with
  | Raise e => (Raise e, w)
  | Ok sha =>
      let url := get_server_url
        ("/packages/" +:+ format_uid package_uid +:+ "/objects/"
         +:+ format_value sha) in
      match send w (HTTP "POST" url (EtagPayload (md5 o))) with
      | (Raise e, w1) => (Raise e, w1)
      | (Ok response, w1) =>
          if status_code response =? 200 then
            match len o (files w1) with
            | Raise e => (Raise e, w1)
            | Ok _ => (Ok EXISTS, w1)
            end
          else if status_code response =? 201 then
            match json response with
            | NotJSON => (Raise JSONDecodeError, w1)
            | NotObject => (Raise (TypeError "object is not subscriptable"), w1)
            | Object body =>
                match json_storage body with
                | None => (Raise (KeyError "storage"), w1)
                | Some backend =>
                    if negb (existsb (String.eqb backend) STORAGES)
                    then (Raise (KeyError backend), w1)
                    else
                      match json_url body with
                      | None => (Raise (KeyError "url"), w1)
                      | Some target =>
                          match storage_upload backend o target w1 with
                          | (Raise e, w2) => (Raise e, w2)
                          | (Ok success, w2) =>
                              (Ok (if success then SUCCESS else FAIL), w2)
                          end
                      end
                end
            end
          else
            match json response with
            | NotJSON => (Raise JSONDecodeError, w1)
            | NotObject =>
                (Raise (AttributeError "object has no attribute 'get'"), w1)
            | Object body =>
                let errors := default [] (json_errors body) in
                (Raise (UploadError
                          ("It was not possible to get url:" +:+ newline
                           +:+ String.concat newline errors)), w1)
            end
      end
  end.

(** [BaseObject.download] (lines 197-210) *)
Definition download (o : BaseObject) (url : string) (w : World)
    : result unit * World :=
  match exists_ o (files w) with
  | Raise e => (Raise e, w)
  | Ok true => (Ok tt, w)
  | Ok false =>
      let w1 := log_request w (FETCH url) in
      match server w (sent w) (FETCH url) with
      | Unreachable => (Raise (DownloadError "Can't reach the server."), w1)
      | Response r =>
          if negb (ok r) then
            (Raise (DownloadError
                      ("It was not possible to download object:" +:+ newline
                       +:+ text r)), w1)
          else
            match filename o with
            | Raise e => (Raise e, w1)
            | Ok (VStr fn) => (Ok tt, write_file w1 fn (content r))
            | Ok _ => (Raise (TypeError "expected str, bytes or os.PathLike object"), w1)
            end
      end
  end.

End Transfers.

(* ===================================================================== *)
(** ** Installation sets *)
(* ===================================================================== *)

(** [InstallationSetMode]: the value of a mode is its number of sets. *)
Inductive InstallationSetMode := Single | ActiveInactive.

Definition mode_value (m : InstallationSetMode) : nat :=
  match m with Single => 1 | ActiveInactive => 2 end.

Record InstallationSetManager := {
  manager_mode : InstallationSetMode;
  sets : list (list BaseObject) }.

Section Manager.
Context `{ext : Externals}.

(** [Modes.get(name)] (lines 27-32) *)
Definition Modes_get (name : string) : result ObjectClass :=
  match find (fun c => String.eqb (mode c) name) Modes_registry with
  | Some c => Ok c
  | None => Raise (ValueError ("There is no " +:+ name +:+ " object class."))
  end.

(** Modelled from the spec: [uhu/core/manager.py] is absent.  "holds N
    ordered collections of Objects, N in {1, 2}". *)
Definition InstallationSetManager_init (m : InstallationSetMode)
    : InstallationSetManager :=
  {| manager_mode := m; sets := replicate (mode_value m) [] |}.

(** Modelled from the spec: "from_objects(list_of_sets) infers the mode
    from the outer collection's length and fails if given an empty
    collection". *)
Definition from_objects {A : Type} (objects : list (list A))
    : result InstallationSetMode :=
  match length objects with
  | 1%nat => Ok Single
  | 2%nat => Ok ActiveInactive
  | _ => Raise (ValueError "There is no objects to infer the mode")
  end.

Definition is_single (m : InstallationSetManager) : bool :=
  match manager_mode m with Single => true | ActiveInactive => false end.

(** Modelled from the spec: [get_installation_set(index)] returns the set
    at [index]; [test_get_installation_set_raises_error_if_set_does_not_exist]
    expects a [ValueError] out of range. *)
Definition get_installation_set (m : InstallationSetManager) (index : nat)
    : result (list BaseObject) :=
  match sets m !! index with
  | Some s => Ok s
  | None => Raise (ValueError "Installation set not found")
  end.

(** Modelled from the spec: "in Single, index must be omitted/zero; in
    ActiveInactive, index (which installation set, 0 or 1) is mandatory -
    omitting it is a contract violation (reported as a missing-argument
    error)".  [SingleModeInstallationSetManagerTestCase] passes [index=0]
    to a Single manager in every call. *)
Definition installation_set_index (m : InstallationSetManager)
    (index : option nat) : result nat :=
  match index with
  | None =>
      if is_single m then Ok 0%nat
      else Raise (TypeError "You must specify an installation set index")
  | Some i =>
      if bool_decide (i < length (sets m))%nat then Ok i
      else Raise (ValueError "Installation set not found")
  end.

Definition set_installation_set (m : InstallationSetManager) (i : nat)
    (s : list BaseObject) : InstallationSetManager :=
  {| manager_mode := manager_mode m; sets := <[i := s]> (sets m) |}.

(** Modelled from the spec: "create(filename, mode, options, index) ...
    Returns an object identifier (position within its set)"; the filename
    is one of the options, as in [Package.from_file]. *)
Definition manager_create (m : InstallationSetManager) (mode_name : string)
    (values : gmap string value) (index : option nat)
    : result nat * InstallationSetManager :=
  match installation_set_index m index with
  | Raise e => (Raise e, m)
  | Ok i =>
      match get_installation_set m i with
      | Raise e => (Raise e, m)
      | Ok s =>
          match (let? c := Modes_get mode_name in BaseObject_init c values)
          with
          | Raise e => (Raise e, m)
          | Ok o => (Ok (length s), set_installation_set m i (s ++ [o]))
          end
      end
  end.

(** Modelled from the spec: "get(object_index, installation_set): same
    argument-presence rule as create.  Fails if object_index or
    installation_set is out of range." *)
Definition manager_get (m : InstallationSetManager) (object_index : nat)
    (index : option nat) : result BaseObject :=
  let? i := installation_set_index m index in
  let? s := get_installation_set m i in
  match s !! object_index with
  | Some o => Ok o
  | None => Raise (ValueError "Object not found")
  end.

(** Modelled from the spec: "update(object_index, option, value,
    installation_set): same rule; ... affects only the targeted object". *)
Definition manager_update (m : InstallationSetManager) (object_index : nat)
    (key : string) (v : value) (index : option nat)
    : result unit * InstallationSetManager :=
  match installation_set_index m index with
  | Raise e => (Raise e, m)
  | Ok i =>
      match (let? s := get_installation_set m i in
             match s !! object_index with
             | Some o => Ok (s, o)
             | None => Raise (ValueError "Object not found")
             end)
      with
      | Raise e => (Raise e, m)
      | Ok (s, o) =>
          let r := update o key v in
          (fst r, set_installation_set m i (<[object_index := snd r]> s))
      end
  end.

(** Modelled from the spec: "remove(object_index, installation_set): fails
    with 'does not exist' if the index is absent". *)
Definition manager_remove (m : InstallationSetManager) (object_index : nat)
    (index : option nat) : result unit * InstallationSetManager :=
  match installation_set_index m index with
  | Raise e => (Raise e, m)
  | Ok i =>
      match get_installation_set m i with
      | Raise e => (Raise e, m)
      | Ok s =>
          if bool_decide (object_index < length s)%nat
          then (Ok tt, set_installation_set m i (delete object_index s))
          else (Raise (ValueError "Object does not exist"), m)
      end
  end.

(** Modelled from the spec: "all(): returns every Object across every set,
    in set order then insertion order". *)
Definition all (m : InstallationSetManager) : list BaseObject :=
  concat (sets m).

(** [[obj.metadata() for obj in installation_set]]: the objects are
    serialized (and loaded) in order; when one fails the later ones are
    left as they were. *)
Fixpoint set_metadata (s : list BaseObject) (fs : gmap string bytes)
    : result (list (gmap string value)) * list BaseObject :=
  match s with
  | [] => (Ok [], [])
  | o :: rest =>
      match metadata_ o fs with
      | (Raise e, o1) => (Raise e, o1 :: rest)
      | (Ok md, o1) =>
          match set_metadata rest fs with
          | (Raise e, rest1) => (Raise e, o1 :: rest1)
          | (Ok mds, rest1) => (Ok (md :: mds), o1 :: rest1)
          end
      end
  end.

Fixpoint sets_metadata (ss : list (list BaseObject)) (fs : gmap string bytes)
    : result (list (list (gmap string value))) * list (list BaseObject) :=
  match ss with
  | [] => (Ok [], [])
  | s :: rest =>
      match set_metadata s fs with
      | (Raise e, s1) => (Raise e, s1 :: rest)
      | (Ok md, s1) =>
          match sets_metadata rest fs with
          | (Raise e, rest1) => (Raise e, s1 :: rest1)
          | (Ok mds, rest1) => (Ok (md :: mds), s1 :: rest1)
          end
      end
  end.

(** Modelled from the spec: "metadata() / template(): return a sequence of
    sequences (one inner sequence per installation set)";
    [test_installation_set_as_metadata]: [metadata[i]] is the metadata of
    set [i]. *)
Definition manager_metadata (m : InstallationSetManager)
    (fs : gmap string bytes)
    : result (list (list (gmap string value))) * InstallationSetManager :=
  let r := sets_metadata (sets m) fs in
  (fst r, {| manager_mode := manager_mode m; sets := snd r |}).

Definition manager_template (m : InstallationSetManager)
    : list (list (gmap string value)) :=
  map (map template) (sets m).

End Manager.

(* ===================================================================== *)
(** ** [Package] ([uhu/core/package.py]) *)
(* ===================================================================== *)

Record Package := {
  package_mode : InstallationSetMode;
  uid : option string;
  version : option string;
  product : option string;
  objects : InstallationSetManager;
  supported_hardware : list (string * list string) }.

Definition set_objects (p : Package) (m : InstallationSetManager) : Package :=
  {| package_mode := package_mode p; uid := uid p; version := version p;
     product := product p; objects := m;
     supported_hardware := supported_hardware p |}.

Definition set_uid (p : Package) (u : option string) : Package :=
  {| package_mode := package_mode p; uid := u; version := version p;
     product := product p; objects := objects p;
     supported_hardware := supported_hardware p |}.

Section PackageMethods.
Context `{ext : Externals}.

(** [Package.__init__] (lines 33-39) *)
Definition Package_init (m : InstallationSetMode)
    (uid_ version_ product_ : option string) : Package :=
  {| package_mode := m; uid := uid_; version := version_;
     product := product_; objects := InstallationSetManager_init m;
     supported_hardware := [] |}.

(** [Package.metadata] (lines 85-93) *)
Definition Package_metadata (p : Package) (fs : gmap string bytes)
    : result PackageMetadata * Package :=
  let r := manager_metadata (objects p) fs in
  (let? objs := fst r in
   Ok {| md_product := product p; md_version := version p;
         md_objects := objs;
         md_supported_hardware := supported_hardware p |},
   set_objects p (snd r)).

(** [Package.upload_metadata] (lines 115-127): the body is decoded
    (line 122) before the status is looked at (line 123). *)
Definition upload_metadata (p : Package) (w : World)
    : result unit * Package * World :=
  match Package_metadata p (files w) with
  | (Raise e, p1) => (Raise e, p1, w)
  | (Ok metadata, p1) =>
      match validate_metadata metadata with
      | Raise e => (Raise e, p1, w)
      | Ok _ =>
          let url := get_server_url "/packages" in
          match send w (HTTP "POST" url (MetadataPayload metadata)) with
          | (Raise e, w1) => (Raise e, p1, w1)
          | (Ok response, w1) =>
              match json response with
              | NotJSON => (Raise JSONDecodeError, p1, w1)
              | NotObject =>
                  if negb (status_code response =? 201) then
                    (Raise (AttributeError "object has no attribute 'get'"),
                     p1, w1)
                  else
                    (Raise (TypeError "object is not subscriptable"), p1, w1)
              | Object response_body =>
                  if negb (status_code response =? 201) then
                    let errors :=
                      String.concat newline
                        (default [] (json_errors response_body)) in
                    (Raise (UploadError
                              ("It was not possible to start pushing:"
                               +:+ newline +:+ errors)), p1, w1)
                  else
                    match json_uid response_body with
                    | None => (Raise (KeyError "uid"), p1, w1)
                    | Some u => (Ok tt, set_uid p1 (Some u), w1)
                    end
              end
          end
      end
  end.

(** The first loop of [upload_objects] (lines 133-134). *)
Fixpoint upload_each (objs : list BaseObject) (package_uid : option string)
    (w : World) : result (list ObjectUploadResult) * World :=
  match objs with
  | [] => (Ok [], w)
  | obj :: rest =>
      match upload obj package_uid w with
      | (Raise e, w1) => (Raise e, w1)
      | (Ok r, w1) =>
          match upload_each rest package_uid w1 with
          | (Raise e, w2) => (Raise e, w2)
          | (Ok rs, w2) => (Ok (r :: rs), w2)
          end
      end
  end.

(** [Package.upload_objects] (lines 129-139), without callback. *)
Definition upload_objects (p : Package) (w : World) : result unit * World :=
  match get_installation_set (objects p) 0 with
  | Raise e => (Raise e, w)
  | Ok objs =>
      match upload_each objs (uid p) w with
      | (Raise e, w1) => (Raise e, w1)
      | (Ok results, w1) =>
          if forallb is_ok results then (Ok tt, w1)
          else (Raise (UploadError "Some objects has not been fully uploaded"),
                w1)
      end
  end.

(** [Package.get_finish_push_url] (lines 148-149) *)
Definition get_finish_push_url (p : Package) : string :=
  get_server_url ("/packages/" +:+ format_uid (uid p) +:+ "/finish").

(** [Package.finish_push] (lines 141-146), without callback. *)
Definition finish_push (p : Package) (w : World) : result unit * World :=
  match send w (HTTP "PUT" (get_finish_push_url p) NoPayload) with
  | (Raise e, w1) => (Raise e, w1)
  | (Ok response, w1) =>
      if negb (status_code response =? 204)
      then (Raise (UploadError ("Push failed" +:+ newline +:+ text response)),
            w1)
      else (Ok tt, w1)
  end.

(** [Package.push] (lines 151-154) *)
Definition push (p : Package) (w : World) : result unit * Package * World :=
  match upload_metadata p w with
  | (Raise e, p1, w1) => (Raise e, p1, w1)
  | (Ok _, p1, w1) =>
      match upload_objects p1 w1 with
      | (Raise e, w2) => (Raise e, p1, w2)
      | (Ok _, w2) =>
          match finish_push p1 w2 with
          | (Raise e, w3) => (Raise e, p1, w3)
          | (Ok _, w3) => (Ok tt, p1, w3)
          end
      end
  end.

(** The loop of [Package.get_download_list] (lines 184-197) *)
Fixpoint download_list (objs : list BaseObject) (fs : gmap string bytes)
    : result (list BaseObject) :=
  match objs with
  | [] => Ok []
  | obj :: rest =>
      let? present := exists_ obj fs in
      if negb present then
        let? l := download_list rest fs in
        Ok (obj :: l)
      else
        let? chunks := __iter__ obj fs in
        let sha256sum := fold_left hash_update chunks [] in
        let? expected := __getitem__ obj "sha256sum" in
        if negb (str_eq expected (sha256_hex sha256sum)) then
          let? fn := filename obj in
          Raise (DownloadError (format_value fn +:+ " will be overwritten"))
        else download_list rest fs
  end.

(** [Package.get_download_list] (lines 173-198) *)
Definition get_download_list (p : Package) (fs : gmap string bytes)
    : result (list BaseObject) :=
  download_list (all (objects p)) fs.

(** The loop of [Package.download_objects] (lines 168-171) *)
Fixpoint download_each (objs : list BaseObject) (uid_ : string) (w : World)
    : result unit * World :=
  match objs with
  | [] => (Ok tt, w)
  | obj :: rest =>
      match __getitem__ obj "sha256sum" with
      | Raise e => (Raise e, w)
      | Ok sha =>
          let path := "/packages/" +:+ uid_ +:+ "/objects/"
                      +:+ format_value sha in
          match download obj (get_server_url path) w with
          | (Raise e, w1) => (Raise e, w1)
          | (Ok _, w1) => download_each rest uid_ w1
          end
      end
  end.

(** [Package.download_objects] (lines 167-171) *)
Definition download_objects (p : Package) (uid_ : string) (w : World)
    : result unit * World :=
  match get_download_list p (files w) with
  | Raise e => (Raise e, w)
  | Ok objs => download_each objs uid_ w
  end.

End PackageMethods.

(* ===================================================================== *)
(** ** Conditions the properties are stated under *)
(* ===================================================================== *)

Section Conditions.
Context `{ext : Externals}.

(** A chunk size [fp.read] takes and that reads a file to its end: a
    positive size, or -1 for the whole file at once. *)
Definition reads_the_file (n : Z) : Prop := 0 < n \/ n = -1.

(** The object has a file name and answers for its expected digest. *)
Definition addressable (o : BaseObject) : Prop :=
  exists fn v, filename o = Ok (VStr fn) /\ __getitem__ o "sha256sum" = Ok v.

(** The object's file is not there. *)
Definition absent (fs : gmap string bytes) (o : BaseObject) : bool :=
  match exists_ o fs with Ok false => true | _ => false end.

(** The object's class was built from distinct option names, and its
    stored values are what [validate_options] returns for them: the state
    [__init__] and [__setitem__] leave an object in when validators return
    validated values unchanged. *)
Definition valid (o : BaseObject) : Prop :=
  NoDup (metadata <$> options (cls o))
  /\ validate_options (cls o) (by_metadata (_values o)) = Ok (_values o).

(** The class declares the registered option [key], whose validator
    returns the values of [P] unchanged. *)
Definition accepts (c : ObjectClass) (key : string) (P : value -> Prop)
    : Prop :=
  exists opt, Options_get key = Ok opt /\ opt ∈ options c
    /\ forall v, P v -> validate opt (mode c) v = Some v.

Definition declared_key (c : ObjectClass) (k : string) : Prop :=
  existsb (fun o => String.eqb (metadata o) k) (options c) = true.

(** The class takes the digest and the size [load()] computes. *)
Definition loadable (c : ObjectClass) : Prop :=
  accepts c "sha256sum" (fun v => exists data, v = VStr (sha256_hex data))
  /\ accepts c "size" (fun v => exists n : nat, v = VInt (Z.of_nat n)).

(** The keys [_metadata_install_condition] pops. *)
Definition ic_keys : list string :=
  ["install-condition"; "install-condition-pattern-type";
   "install-condition-pattern"; "install-condition-seek";
   "install-condition-buffer-size"].

(** The install condition stored in the object can be resolved: its
    fields are there and [get_version] finds a version. *)
Definition install_condition_resolves (o : BaseObject)
    (fs : gmap string bytes) : Prop :=
  exists md,
    _metadata_install_condition o fs (by_metadata (_values o)) = Ok md.

(** The class has distinct option names, none of them [mode]; its
    validators return validated values unchanged (and never [None]); its
    volatile options are optional and have no default. *)
Definition well_formed (c : ObjectClass) : Prop :=
  NoDup (metadata <$> options c)
  /\ (forall x, x ∈ options c -> metadata x <> "mode")
  /\ (forall x v u, x ∈ options c -> validate x (mode c) v = Some u ->
        validate x (mode c) u = Some u /\ is_None u = false)
  /\ (forall x, x ∈ options c -> volatile x = true ->
        is_required c x = false /\ opt_default x = VNone).

(** The part of [template()] that comes from the stored values. *)
Definition stored_template (vs : list (Option * value)) : gmap string value :=
  by_metadata (filter (fun kv => volatile (fst kv) = false) vs).

(** The same object in a later state. *)
Definition same_object (o o1 : BaseObject) : Prop :=
  cls o1 = cls o /\ chunk_size o1 = chunk_size o.

(** Of the stored values only [sha256sum] and [size] may differ. *)
Definition reloaded (o o1 : BaseObject) : Prop :=
  forall k, k <> "sha256sum" -> k <> "size" ->
    by_metadata (_values o1) !! k = by_metadata (_values o) !! k.

(** The request [upload_metadata] sends. *)
Definition metadata_request (md : PackageMetadata) : request :=
  HTTP "POST" (get_server_url "/packages") (MetadataPayload md).

(** The request [upload] asks the server with. *)
Definition object_request (package_uid : option string) (o : BaseObject)
    (sha : value) : request :=
  HTTP "POST"
    (get_server_url ("/packages/" +:+ format_uid package_uid +:+ "/objects/"
                     +:+ format_value sha))
    (EtagPayload (md5 o)).

(** The request [download_objects] fetches an object with. *)
Definition fetch_of (uid_ : string) (objs : list BaseObject) (rq : request)
    : Prop :=
  exists o sha, o ∈ objs /\ __getitem__ o "sha256sum" = Ok sha
    /\ rq = FETCH (get_server_url ("/packages/" +:+ uid_ +:+ "/objects/"
                                   +:+ format_value sha)).

(** A request of the object phase: a POST or a transfer to a storage. *)
Definition transfer_request (rq : request) : Prop :=
  match rq with
  | HTTP method _ _ => method = "POST"
  | STORAGE _ _ _ => True
  | FETCH _ => False
  end.

(** What [metadata()] holds under [key]; [None] when it raises or has
    no such key. *)
Definition metadata_key (o : BaseObject) (fs : gmap string bytes)
    (key : string) : option value :=
  match fst (metadata_ o fs) with
  | Ok md => md !! key
  | Raise _ => None
  end.

End Conditions.

(* ===================================================================== *)
(** ** A concrete registry, two modes and a small world *)
(* ===================================================================== *)

(** The [raw] and [ubifs] modes with the options the test-suite uses, a
    gzip reader and a scripted server: the data the properties below are
    evaluated on. *)
Module Fixture.

Definition string_option (name : string) (vol : bool) (dflt : value)
    : Option :=
  {| metadata := name; volatile := vol; opt_default := dflt;
     validate := fun _ v => match v with VStr _ => Some v | _ => None end |}.

Definition integer_option (name : string) (vol : bool) : Option :=
  {| metadata := name; volatile := vol; opt_default := VNone;
     validate := fun _ v =>
       match v with
       | VInt z => if 0 <=? z then Some v else None
       | _ => None
       end |}.

Definition boolean_option (name : string) (vol : bool) : Option :=
  {| metadata := name; volatile := vol; opt_default := VNone;
     validate := fun _ v => match v with VBool _ => Some v | _ => None end |}.

Definition registry : list Option :=
  [ string_option "filename" false VNone;
    string_option "sha256sum" true VNone;
    integer_option "size" true;
    string_option "target-type" false VNone;
    string_option "target" false VNone;
    string_option "volume" false VNone;
    boolean_option "compressed" true;
    integer_option "required-uncompressed-size" true;
    string_option "install-condition" false (VStr "always");
    string_option "install-condition-version" true VNone;
    string_option "install-condition-pattern-type" false VNone;
    string_option "install-condition-pattern" false VNone;
    integer_option "install-condition-seek" false;
    integer_option "install-condition-buffer-size" false ].

(** Little-endian value of a byte string. *)
Fixpoint le_value (data : bytes) : Z :=
  match data with
  | [] => 0
  | b :: rest => SHA256.byteZ b + 256 * le_value rest
  end.

(** Modelled from the spec: [uhu.utils.get_compressor_format] is absent.
    "sniffing the file's header bytes against known compressed-container
    signatures"; of the signatures only gzip's (1f 8b) is modelled. *)
Definition sniff (fs : gmap string bytes) (fn : value) : option string :=
  match fn with
  | VStr name =>
      match fs !! name with
      | Some (x1f :: x8b :: _) => Some "gzip"
      | _ => None
      end
  | _ => None
  end.

(** Modelled from the spec: "where the format stores an uncompressed
    length ... computing it": a gzip member ends with the length of its
    plain text, on four little-endian bytes. *)
Definition stored_size (format : string) (fs : gmap string bytes)
    (fn : value) : option Z :=
  match fn with
  | VStr name =>
      match fs !! name with
      | Some data =>
          if String.eqb format "gzip"
          then Some (le_value (drop (length data - 4) data))
          else None
      | None => None
      end
  | _ => None
  end.

(** The collaborators before any class statement has run. *)
Definition ext0 : Externals :=
  {| Options_registry := registry;
     Modes_registry := [];
     get_chunk_size := 131072;
     float_ceil := fun _ _ => Raise OverflowError;
     maxsize := 2 ^ 63 - 1;
     md5_hexdigest := fun data => "md5-of-" +:+ hex (take 4 data);
     get_compressor_format := sniff;
     container_size := stored_size;
     get_version := fun _ _ _ _ => Ok (VStr "4.4.1");
     validate_metadata := fun _ => Ok tt;
     get_server_url := fun path => "http://localhost" +:+ path;
     STORAGES := ["dummy"; "swift"] |}.

(** What the class statements of the two modes declare. *)
Definition raw_statement : ClassDecl :=
  {| decl_mode := "raw"; decl_allow_compression := true;
     decl_allow_install_condition := true;
     decl_options := ["filename"; "sha256sum"; "size"; "target-type";
                      "target"];
     decl_required_options := ["filename"; "target-type"; "target"] |}.

Definition ubifs_statement : ClassDecl :=
  {| decl_mode := "ubifs"; decl_allow_compression := false;
     decl_allow_install_condition := false;
     decl_options := ["filename"; "sha256sum"; "size"; "volume"];
     decl_required_options := ["filename"; "volume"] |}.

(** The classes [ObjectType.__init__] makes of them (see
    [raw_class_statement] and [ubifs_class_statement] below). *)
Definition raw : ObjectClass :=
  {| mode := "raw"; allow_compression := true;
     allow_install_condition := true;
     options :=
       [ string_option "filename" false VNone;
         string_option "sha256sum" true VNone;
         integer_option "size" true;
         string_option "target-type" false VNone;
         string_option "target" false VNone;
         boolean_option "compressed" true;
         integer_option "required-uncompressed-size" true;
         string_option "install-condition" false (VStr "always");
         string_option "install-condition-version" true VNone;
         string_option "install-condition-pattern-type" false VNone;
         string_option "install-condition-pattern" false VNone;
         integer_option "install-condition-seek" false;
         integer_option "install-condition-buffer-size" false ];
     required_options :=
       [ string_option "filename" false VNone;
         string_option "target-type" false VNone;
         string_option "target" false VNone ] |}.

Definition ubifs : ObjectClass :=
  {| mode := "ubifs"; allow_compression := false;
     allow_install_condition := false;
     options :=
       [ string_option "filename" false VNone;
         string_option "sha256sum" true VNone;
         integer_option "size" true;
         string_option "volume" false VNone ];
     required_options :=
       [ string_option "filename" false VNone;
         string_option "volume" false VNone ] |}.

Definition ext : Externals :=
  {| Options_registry := registry;
     Modes_registry := [raw; ubifs];
     get_chunk_size := 131072;
     float_ceil := float_ceil (Externals := ext0);
     maxsize := maxsize (Externals := ext0);
     md5_hexdigest := md5_hexdigest (Externals := ext0);
     get_compressor_format := sniff;
     container_size := stored_size;
     get_version := get_version (Externals := ext0);
     validate_metadata := fun _ => Ok tt;
     get_server_url := get_server_url (Externals := ext0);
     STORAGES := ["dummy"; "swift"] |}.

(** [gzip] of the 29 bytes of [base_txt]. *)
Definition base_txt : bytes := encode "spam and eggs, spam and eggs" ++ [x0a].

Definition base_txt_gz : bytes :=
  [ x1f; x8b; x08; x00; x00; x00; x00; x00; x02; xff; x2b; x2e; x48;
    xcc; x55; x48; xcc; x4b; x51; x48; x4d; x4f; x2f; xd6; x51; x28;
    x46; xe6; x72; x01; x00; xce; x95; xb9; x2e; x1d; x00; x00; x00 ].

Definition local_files : gmap string bytes :=
  <["base.txt" := base_txt]> (<["base.txt.gz" := base_txt_gz]> ∅).

Definition no_keys : json_object :=
  {| json_errors := None; json_uid := None; json_storage := None;
     json_url := None |}.

(** An answer with a status and the empty JSON object for body. *)
Definition plain_response (status : Z) : response :=
  {| status_code := status; json := Object no_keys; text := "";
     content := [] |}.

(** A server that refuses every package: 422 with one error. *)
Definition refusing (_ : list request) (_ : request) : reply :=
  Response {| status_code := 422;
              json := Object {| json_errors := Some ["invalid version"];
                                json_uid := None; json_storage := None;
                                json_url := None |};
              text := ""; content := [] |}.

(** A server that accepts packages under uid [100], knows no object and
    hands out a storage URL; the storage refuses the first transfer and
    takes the later ones. *)
Definition flaky_storage (history : list request) (rq : request) : reply :=
  match rq with
  | HTTP method url _ =>
      if String.eqb url "http://localhost/packages" then
        Response {| status_code := 201;
                    json := Object {| json_errors := None;
                                      json_uid := Some "100";
                                      json_storage := None;
                                      json_url := None |};
                    text := ""; content := [] |}
      else if String.eqb method "POST" then
        Response {| status_code := 201;
                    json := Object {| json_errors := None; json_uid := None;
                                      json_storage := Some "dummy";
                                      json_url := Some "http://storage/put" |};
                    text := ""; content := [] |}
      else Response (plain_response 204)
  | STORAGE _ _ _ =>
      if existsb (fun old => match old with STORAGE _ _ _ => true
                                          | _ => false end) history
      then Response (plain_response 200)
      else Response (plain_response 500)
  | FETCH _ => Response (plain_response 404)
  end.

Definition world (srv : list request -> request -> reply) : World :=
  {| files := local_files; sent := []; server := srv |}.

Definition raw_values (fn : string) : gmap string value :=
  <["filename" := VStr fn]>
    (<["target-type" := VStr "device"]> (<["target" := VStr "/dev/sda"]> ∅)).

Definition object_of (c : ObjectClass) (values : gmap string value)
    : BaseObject :=
  match @BaseObject_init ext c values with
  | Ok o => o
  | Raise _ => {| cls := c; _values := []; chunk_size := 1; md5 := None |}
  end.

(** A raw object on the uncompressed file. *)
Definition plain_object : BaseObject :=
  Eval vm_compute in object_of raw (raw_values "base.txt").

(** A raw object on the gzip file. *)
Definition gzip_object : BaseObject :=
  Eval vm_compute in object_of raw (raw_values "base.txt.gz").

(** The object [Package.from_metadata] builds from the metadata of
    [gzip_object]: the compression keys come back as options. *)
Definition pulled_object : BaseObject :=
  Eval vm_compute in object_of raw
    (<["compressed" := VBool true]>
       (<["required-uncompressed-size" := VInt 29]>
          (raw_values "base.txt.gz"))).

(** The object [Package.from_metadata] builds from the same metadata when
    the local file of that name is the plain text. *)
Definition stale_object : BaseObject :=
  Eval vm_compute in object_of raw
    (<["compressed" := VBool true]>
       (<["required-uncompressed-size" := VInt 29]>
          (raw_values "base.txt"))).

Definition package_of (objs : list BaseObject) : Package :=
  {| package_mode := Single; uid := None; version := Some "2.0";
     product := Some "1"; objects := {| manager_mode := Single;
                                        sets := [objs] |};
     supported_hardware := [] |}.

Definition single_manager : InstallationSetManager :=
  InstallationSetManager_init Single.

Definition plain_package : Package := package_of [plain_object].

Definition two_objects : Package := package_of [plain_object; gzip_object].

(** An answer that is no JSON document, as a gateway in front of the
    server gives. *)
Definition html_500 : response :=
  {| status_code := 500; json := NotJSON;
     text := "<html><body>Internal Server Error</body></html>";
     content := [] |}.

(** A server that answers nothing but [html_500]. *)
Definition html_error (_ : list request) (_ : request) : reply :=
  Response html_500.

(** A server that accepts packages under uid [100], has every object
    already, finalizes every push and serves the same content for every
    object. *)
Definition served : bytes := encode "a new rootfs".

Definition accepting (_ : list request) (rq : request) : reply :=
  match rq with
  | HTTP method url _ =>
      if String.eqb url "http://localhost/packages" then
        Response {| status_code := 201;
                    json := Object {| json_errors := None;
                                      json_uid := Some "100";
                                      json_storage := None;
                                      json_url := None |};
                    text := ""; content := [] |}
      else if String.eqb method "POST" then Response (plain_response 200)
      else Response (plain_response 204)
  | STORAGE _ _ _ => Response (plain_response 200)
  | FETCH _ =>
      Response {| status_code := 200; json := NotJSON; text := "";
                  content := served |}
  end.

(** The collaborators when the environment sets the chunk size to [n]. *)
Definition chunk_env (n : Z) : Externals :=
  {| Options_registry := registry;
     Modes_registry := [raw; ubifs];
     get_chunk_size := n;
     float_ceil := float_ceil (Externals := ext0);
     maxsize := maxsize (Externals := ext0);
     md5_hexdigest := md5_hexdigest (Externals := ext0);
     get_compressor_format := sniff;
     container_size := stored_size;
     get_version := get_version (Externals := ext0);
     validate_metadata := fun _ => Ok tt;
     get_server_url := get_server_url (Externals := ext0);
     STORAGES := ["dummy"; "swift"] |}.

Definition object_in (e : Externals) (c : ObjectClass)
    (values : gmap string value) : BaseObject :=
  match @BaseObject_init e c values with
  | Ok o => o
  | Raise _ => {| cls := c; _values := []; chunk_size := 1; md5 := None |}
  end.

(** The options [Package.from_metadata] creates a raw object with, from
    the server's metadata of an object of content [data]. *)
Definition pulled_values (fn : string) (data : bytes) : gmap string value :=
  <["sha256sum" := VStr (sha256_hex data)]>
    (<["size" := VInt (Z.of_nat (length data))]> (raw_values fn)).

(** A pulled object whose file is there, as expected. *)
Definition equal_object : BaseObject :=
  Eval vm_compute in object_of raw (pulled_values "base.txt" base_txt).

(** A pulled object whose file is there with another content. *)
Definition diverging_object : BaseObject :=
  Eval vm_compute in object_of raw (pulled_values "base.txt" served).

(** A pulled object whose file is not there. *)
Definition missing_object : BaseObject :=
  Eval vm_compute in object_of raw (pulled_values "rootfs.bin" served).

Definition pull_package : Package :=
  package_of [equal_object; missing_object].

Definition diverging_package : Package :=
  package_of [missing_object; diverging_object].

(** [plain_object] and [equal_object], created with the chunk size 0. *)
Definition zero_chunk_object : BaseObject :=
  Eval vm_compute in object_in (chunk_env 0) raw (raw_values "base.txt").

Definition zero_chunk_equal : BaseObject :=
  Eval vm_compute in
    object_in (chunk_env 0) raw (pulled_values "base.txt" base_txt).

Definition zero_chunk_pull : Package := package_of [zero_chunk_equal].

End Fixture.

(* ===================================================================== *)
(** * Properties *)
(* ===================================================================== *)

Example sha256_abc :
  sha256_hex (encode "abc")
  = "ba7816bf8f01cfea414140de5dae2223b00361a396177a9cb410ff61f20015ad".
Proof. vm_compute. reflexivity. Qed.

Module SigningFacts.
Import EFOTAV1Signature.

Example test_hashed_canonical_request :
  hashed_canonical_request test_request
  = "2ac9a6746aca543af8dff39894cfe8173afba21eb01c6fae33d52947222855ef".
Proof. vm_compute. reflexivity. Qed.

Example test_signed_headers :
  signed_headers test_request = "bar;foo;host;timestamp".
Proof. vm_compute. reflexivity. Qed.

Example test_key :
  key "SECRET" test_request
  = "19fbc0211973906c184462dc765703b4d44a18bbe78624bf2abfc46c49c20c29".
Proof. vm_compute. reflexivity. Qed.

Example test_signature_hash :
  signature_hash "SECRET" test_request
  = "d826360e77d1d35c16342aa3188529fefa37a63717acc391a8ccb2ec7dc053ca".
Proof. vm_compute. reflexivity. Qed.

End SigningFacts.

Module Signing.
Import EFOTAV1Signature.

(** C1 (amended). For the fixed request of the test-suite the transform
    produces exactly the expected authorization value, the signing key
    being the hexadecimal text of HMAC-SHA256 keyed by ["EFOTA-V1-"]
    followed by the secret, over the date, and the signature being keyed
    by that text. *)
Theorem signature_of_test_request :
  signature "123ACCESSID" "SECRET" test_request = expected_signature.
Proof. vm_compute. reflexivity. Qed.

(** C1, as stated, fails: keyed by the shared secret alone the transform
    gives another signature, whether the signing key is used as raw
    digest or as hexadecimal text. *)
Lemma secret_keyed_signature_differs :
  String.eqb (spec_signature false "123ACCESSID" "SECRET" test_request)
             expected_signature = false
  /\ String.eqb (spec_signature true "123ACCESSID" "SECRET" test_request)
                expected_signature = false.
Proof. split; vm_compute; reflexivity. Qed.

End Signing.

Section ChunkFacts.

Lemma fold_hash_update (chunks : list bytes) (acc : bytes) :
  fold_left hash_update chunks acc = acc ++ concat chunks.
Proof.
  revert acc. induction chunks as [|c chunks IH]; intros acc; simpl.
  - by rewrite app_nil_r.
  - rewrite IH. unfold hash_update. by rewrite <- app_assoc.
Qed.

Lemma concat_read_chunks (fuel n : nat) (data : bytes) :
  (0 < n)%nat -> (length data <= fuel)%nat ->
  concat (read_chunks fuel n data) = data.
Proof.
  intros Hn. revert data.
  induction fuel as [|fuel IH]; intros data Hlen; simpl.
  - destruct data; [done | simpl in Hlen; lia].
  - destruct data as [|b data]; [done|].
    simpl. rewrite IH.
    + apply (take_drop n (b :: data)).
    + rewrite length_drop. simpl in *. lia.
Qed.

Lemma concat_iter_chunks (n : Z) (data : bytes) :
  reads_the_file n ->
  exists chunks, iter_chunks n data = Ok chunks /\ concat chunks = data.
Proof.
  intros Hn. unfold iter_chunks.
  destruct (Z.ltb_spec n (-1)); [destruct Hn; lia|].
  destruct (Z.eqb_spec n (-1)).
  - eexists. split; [done|].
    destruct data; simpl; [done | by rewrite app_nil_r].
  - destruct (Z.eqb_spec n 0); [destruct Hn; lia|].
    eexists. split; [done|]. apply concat_read_chunks; destruct Hn; lia.
Qed.

(** Feeding a hash object the chunks of a file is hashing the file. *)
Lemma hash_of_chunks (n : Z) (data : bytes) :
  reads_the_file n ->
  exists chunks, iter_chunks n data = Ok chunks
    /\ fold_left hash_update chunks [] = data.
Proof.
  intros Hn. destruct (concat_iter_chunks n data Hn) as (chunks & Hc & Hcat).
  exists chunks. split; [done|]. by rewrite fold_hash_update.
Qed.

End ChunkFacts.

Section Pull.
Context `{ext : Externals}.

Lemma exists_present (o : BaseObject) (fs : gmap string bytes) fn c :
  filename o = Ok (VStr fn) -> fs !! fn = Some c -> exists_ o fs = Ok true.
Proof.
  intros Hfn Hc. unfold exists_. rewrite Hfn. f_equal.
  apply bool_decide_eq_true. eauto.
Qed.

(** C10. When the object's file is there, [download(url)] returns at
    once and leaves the world as it was: no request is issued and no file
    is written, whatever the url. *)
Theorem download_existing (o : BaseObject) (url : string) (w : World) fn c :
  filename o = Ok (VStr fn) -> files w !! fn = Some c ->
  download o url w = (Ok tt, w).
Proof.
  intros Hfn Hc. unfold download.
  by rewrite (exists_present o (files w) fn c).
Qed.

End Pull.

Section Pull2.
Context `{ext : Externals}.

Lemma str_eq_true (v : value) (s : string) : str_eq v s = true -> v = VStr s.
Proof.
  destruct v; simpl; try discriminate.
  intros H. apply String.eqb_eq in H. by subst.
Qed.

Lemma str_eq_refl (s : string) : str_eq (VStr s) s = true.
Proof. simpl. apply String.eqb_refl. Qed.

Lemma exists_false (o : BaseObject) (fs : gmap string bytes) :
  exists_ o fs = Ok false ->
  exists fn, filename o = Ok (VStr fn) /\ fs !! fn = None.
Proof.
  unfold exists_. destruct (filename o) as [[]|]; try discriminate.
  intros H. injection H as H. apply bool_decide_eq_false in H.
  eexists. split; [done|]. by apply eq_None_not_Some.
Qed.

(** Iterating over an object whose file is there, with a chunk size that
    reads the file, gives chunks that hash to the digest of the file. *)
Lemma iter_readable (o : BaseObject) (fs : gmap string bytes) fn data :
  filename o = Ok (VStr fn) -> fs !! fn = Some data ->
  reads_the_file (chunk_size o) ->
  exists chunks, __iter__ o fs = Ok chunks
    /\ fold_left hash_update chunks [] = data.
Proof.
  intros Hfn Hdata Hcs. unfold __iter__. rewrite Hfn. simpl. rewrite Hdata.
  by apply hash_of_chunks.
Qed.

Lemma download_list_Ok (objs l : list BaseObject) (fs : gmap string bytes) :
  (forall o, o ∈ objs -> reads_the_file (chunk_size o)) ->
  download_list objs fs = Ok l ->
  l = List.filter (absent fs) objs
  /\ forall o fn c, o ∈ objs -> filename o = Ok (VStr fn) ->
       fs !! fn = Some c ->
       __getitem__ o "sha256sum" = Ok (VStr (sha256_hex c)).
Proof.
  revert l. induction objs as [|obj rest IH]; intros l Hcs; simpl.
  - intros [= <-]. split; [done|]. intros o fn c Ho. by apply elem_of_nil in Ho.
  - assert (Hrest : forall o, o ∈ rest -> reads_the_file (chunk_size o))
      by (intros; apply Hcs; by right).
    unfold absent at 1.
    destruct (exists_ obj fs) as [[]|] eqn:Hex; simpl; try discriminate.
    + destruct (__iter__ obj fs) as [chunks|] eqn:Hit; [|discriminate].
      destruct (__getitem__ obj "sha256sum") as [expected|] eqn:Hsha;
        try discriminate.
      destruct (str_eq expected _) eqn:Heq; simpl.
      2:{ by destruct (filename obj). }
      intros Hl. destruct (IH l Hrest Hl) as [-> Hall]. split; [done|].
      intros o fn' c' Ho Hfn' Hc'.
      apply elem_of_cons in Ho as [->|Ho]; [|by eapply Hall].
      destruct (iter_readable obj fs fn' c' Hfn' Hc') as (chunks' & Hit' & Hh);
        [apply Hcs; by left|].
      rewrite Hit in Hit'. injection Hit' as <-. rewrite Hh in Heq.
      by rewrite Hsha, (str_eq_true _ _ Heq).
    + destruct (download_list rest fs) as [l'|] eqn:Hl'; try discriminate.
      intros [= <-]. destruct (IH l' Hrest eq_refl) as [-> Hall].
      split; [done|].
      intros o fn' c' Ho Hfn' Hc'.
      apply elem_of_cons in Ho as [->|Ho]; [|by eapply Hall].
      apply exists_false in Hex as (fn & Hfn & Hnone). congruence.
Qed.

Lemma download_list_Raise (objs : list BaseObject) (fs : gmap string bytes)
    (e : exn) :
  (forall o, o ∈ objs -> reads_the_file (chunk_size o) /\ addressable o) ->
  download_list objs fs = Raise e ->
  exists o fn c, o ∈ objs /\ filename o = Ok (VStr fn) /\ fs !! fn = Some c
    /\ __getitem__ o "sha256sum" <> Ok (VStr (sha256_hex c))
    /\ e = DownloadError (fn +:+ " will be overwritten").
Proof.
  induction objs as [|obj rest IH]; intros Hwf; simpl; [discriminate|].
  assert (Hrest : forall o, o ∈ rest ->
            reads_the_file (chunk_size o) /\ addressable o)
    by (intros; apply Hwf; by right).
  destruct (Hwf obj) as [Hcs (fn & v & Hfn & Hsha)]; [by left|].
  unfold exists_. rewrite Hfn. simpl.
  destruct (fs !! fn) as [c|] eqn:Hc.
  - rewrite bool_decide_eq_true_2 by eauto. simpl.
    destruct (iter_readable obj fs fn c Hfn Hc Hcs) as (chunks & -> & ->).
    rewrite Hsha.
    destruct (str_eq v (sha256_hex c)) eqn:Heq; simpl.
    + intros H. destruct (IH Hrest H) as (o & fn' & c' & Ho & ?).
      exists o, fn', c'. split; [by right | done].
    + intros [= <-]. exists obj, fn, c.
      repeat split; try done; [by left|].
      rewrite Hsha. intros [= ->]. by rewrite str_eq_refl in Heq.
  - rewrite bool_decide_eq_false_2 by (intros [? ?]; congruence). simpl.
    destruct (download_list rest fs) eqn:Hl; [discriminate|].
    intros [= <-]. destruct (IH Hrest eq_refl) as (o & fn' & c' & Ho & ?).
    exists o, fn', c'. split; [by right | done].
Qed.

Lemma download_list_diverging (objs : list BaseObject)
    (fs : gmap string bytes) o fn c :
  (forall o, o ∈ objs -> reads_the_file (chunk_size o) /\ addressable o) ->
  o ∈ objs -> filename o = Ok (VStr fn) -> fs !! fn = Some c ->
  __getitem__ o "sha256sum" <> Ok (VStr (sha256_hex c)) ->
  exists e, download_list objs fs = Raise e.
Proof.
  intros Hwf Ho Hfn Hc Hne.
  destruct (download_list objs fs) as [l|e] eqn:Hl; [|by eexists].
  apply download_list_Ok in Hl as [_ Hall]; [|intros; by apply Hwf].
  destruct Hne. by eapply Hall.
Qed.

(** When every file that is there has the expected digest, the list is
    returned. *)
Lemma download_list_equal (objs : list BaseObject) (fs : gmap string bytes) :
  (forall o, o ∈ objs -> reads_the_file (chunk_size o) /\ addressable o) ->
  (forall o fn c, o ∈ objs -> filename o = Ok (VStr fn) ->
     fs !! fn = Some c ->
     __getitem__ o "sha256sum" = Ok (VStr (sha256_hex c))) ->
  download_list objs fs = Ok (List.filter (absent fs) objs).
Proof.
  intros Hwf Heq.
  destruct (download_list objs fs) as [l|e] eqn:Hl.
  - apply download_list_Ok in Hl as [-> _]; [done|]. intros; by apply Hwf.
  - destruct (download_list_Raise _ _ _ Hwf Hl)
      as (o & fn & c & Ho & Hfn & Hc & Hne & _).
    destruct Hne. by eapply Heq.
Qed.

Lemma download_keeps_files (o : BaseObject) (url : string) (w w' : World) r :
  download o url w = (r, w') ->
  forall fn c, files w !! fn = Some c -> files w' !! fn = Some c.
Proof.
  unfold download.
  destruct (exists_ o (files w)) as [[]|] eqn:Hex; try (by intros [= <- <-]).
  apply exists_false in Hex as (name & Hname & Hnone).
  destruct (server w (sent w) (FETCH url)) as [|resp];
    [by intros [= <- <-]|].
  destruct (ok resp); simpl; [|by intros [= <- <-]].
  rewrite Hname. intros [= <- <-] fn c Hc. simpl.
  rewrite lookup_insert_ne; [done | congruence].
Qed.

Lemma download_each_keeps_files (objs : list BaseObject) (uid_ : string)
    (w w' : World) r :
  download_each objs uid_ w = (r, w') ->
  forall fn c, files w !! fn = Some c -> files w' !! fn = Some c.
Proof.
  revert w. induction objs as [|obj rest IH]; intros w; simpl.
  - by intros [= <- <-].
  - destruct (__getitem__ obj "sha256sum"); [|by intros [= <- <-]].
    destruct (download obj _ w) as [[] w1] eqn:Hd.
    + intros H fn c Hc. eapply IH; [done|].
      by eapply download_keeps_files.
    + intros [= <- <-]. by eapply download_keeps_files.
Qed.

Lemma exists_kept (o : BaseObject) (fs fs' : gmap string bytes) :
  (forall fn c, fs !! fn = Some c -> fs' !! fn = Some c) ->
  exists_ o fs = Ok true -> exists_ o fs' = Ok true.
Proof.
  intros Hkeep. unfold exists_.
  destruct (filename o) as [[| | |fn|]|]; try done.
  intros [= H]. apply bool_decide_eq_true in H as [c Hc].
  f_equal. apply bool_decide_eq_true. exists c. by apply Hkeep.
Qed.

(** What one download does: it issues no request, or the fetch of the
    url for an object whose file is missing; when it returns the file is
    there. *)
Lemma download_log (o : BaseObject) (url : string) (w w' : World) r :
  download o url w = (r, w') ->
  (sent w' = sent w
   \/ absent (files w) o = true /\ sent w' = sent w ++ [FETCH url])
  /\ (r = Ok tt -> exists_ o (files w') = Ok true).
Proof.
  unfold download, absent.
  destruct (exists_ o (files w)) as [[]|] eqn:Hex;
    [| |intros [= <- <-]; split; [by left | done]].
  { intros [= <- <-]. split; [by left | done]. }
  apply exists_false in Hex as (fn & Hfn & Hnone).
  destruct (server w (sent w) (FETCH url)) as [|resp];
    [intros [= <- <-]; split; [by right | done]|].
  destruct (ok resp); simpl; [|intros [= <- <-]; split; [by right | done]].
  rewrite Hfn. intros [= <- <-]. split; [by right|]. intros _.
  apply (exists_present o _ fn (content resp)); [done|].
  simpl. apply lookup_insert_eq.
Qed.

Lemma download_each_log (objs : list BaseObject) (uid_ : string)
    (w w' : World) r :
  download_each objs uid_ w = (r, w') ->
  (exists l, sent w' = sent w ++ l /\ Forall (fetch_of uid_ objs) l)
  /\ (r = Ok tt -> forall o, o ∈ objs -> exists_ o (files w') = Ok true).
Proof.
  revert w. induction objs as [|obj rest IH]; intros w; simpl.
  - intros [= <- <-]. split.
    + exists []. by rewrite app_nil_r.
    + intros _ o Ho. by apply elem_of_nil in Ho.
  - assert (Hweak : forall l, Forall (fetch_of uid_ rest) l ->
              Forall (fetch_of uid_ (obj :: rest)) l).
    { intros l Hl. eapply Forall_impl; [exact Hl|].
      intros rq (o & s & Ho & ? & ?).
      exists o, s. split; [by right | done]. }
    destruct (__getitem__ obj "sha256sum") as [sha|] eqn:Hsha.
    2:{ intros [= <- <-]. split; [|done]. exists []. by rewrite app_nil_r. }
    destruct (download obj _ w) as [rd w1] eqn:Hd.
    destruct (download_log _ _ _ _ _ Hd) as [Hlog Hex].
    assert (Hone : exists l, sent w1 = sent w ++ l
              /\ Forall (fetch_of uid_ (obj :: rest)) l).
    { destruct Hlog as [Hlog | [_ Hlog]].
      - exists []. by rewrite app_nil_r.
      - eexists. split; [exact Hlog|]. constructor; [|done].
        exists obj, sha. split; [by left | done]. }
    destruct rd as [[]|e].
    2:{ intros [= <- <-]. split; [exact Hone | done]. }
    intros Hrest. destruct (IH w1 Hrest) as [(l2 & Hs2 & Hf2) Hall].
    destruct Hone as (l1 & Hs1 & Hf1). split.
    + exists (l1 ++ l2). rewrite Hs2, Hs1, <- app_assoc. split; [done|].
      apply Forall_app. split; [done | by apply Hweak].
    + intros -> o Ho. apply elem_of_cons in Ho as [->|Ho];
        [|by apply Hall].
      eapply exists_kept; [|by apply Hex].
      by eapply download_each_keeps_files.
Qed.

Lemma download_list_covers (objs l : list BaseObject)
    (fs : gmap string bytes) :
  download_list objs fs = Ok l ->
  (forall o, o ∈ objs -> o ∈ l \/ exists_ o fs = Ok true)
  /\ (forall o, o ∈ l -> o ∈ objs /\ absent fs o = true).
Proof.
  revert l. induction objs as [|obj rest IH]; intros l; simpl.
  - intros [= <-]. split; intros o Ho; by apply elem_of_nil in Ho.
  - unfold absent at 1.
    destruct (exists_ obj fs) as [[]|] eqn:Hex; simpl; [| |discriminate].
    + destruct (__iter__ obj fs); [|discriminate]. simpl.
      destruct (__getitem__ obj "sha256sum"); [|discriminate]. simpl.
      destruct (negb _). { by destruct (filename obj). }
      intros Hl. destruct (IH l Hl) as [Hin Hout]. split.
      * intros o Ho. apply elem_of_cons in Ho as [->|Ho]; [by right|].
        by apply Hin.
      * intros o Ho. destruct (Hout o Ho). split; [by right | done].
    + destruct (download_list rest fs) as [l'|]; [|discriminate].
      intros [= <-]. destruct (IH l' eq_refl) as [Hin Hout]. split.
      * intros o Ho. apply elem_of_cons in Ho as [->|Ho]; [left; by left|].
        destruct (Hin o Ho); [left; by right | by right].
      * intros o Ho. apply elem_of_cons in Ho as [->|Ho].
        -- split; [by left|]. unfold absent. by rewrite Hex.
        -- destruct (Hout o Ho). split; [by right | done].
Qed.

(** A download that returns either found the file there, or fetched the
    url and wrote the file. *)
Lemma download_Ok (o : BaseObject) (url : string) (w w' : World) :
  download o url w = (Ok tt, w') ->
  (exists_ o (files w) = Ok true /\ w' = w)
  \/ (exists fn c, filename o = Ok (VStr fn) /\ files w !! fn = None
         /\ sent w' = sent w ++ [FETCH url]
         /\ files w' = <[fn := c]> (files w)).
Proof.
  unfold download.
  destruct (exists_ o (files w)) as [[]|] eqn:Hex; [| |discriminate].
  { intros [= <-]. by left. }
  apply exists_false in Hex as (fn & Hfn & Hnone).
  destruct (server w (sent w) (FETCH url)) as [|resp]; [discriminate|].
  destruct (ok resp); simpl; [|discriminate].
  rewrite Hfn. intros [= <-]. right. exists fn, (content resp).
  by repeat split.
Qed.

(** When the downloads return, for every object of the list whose file
    was not there an object of the list with the same file name was
    fetched. *)
Lemma download_each_fetched (objs : list BaseObject) (uid_ : string)
    (w w' : World) :
  download_each objs uid_ w = (Ok tt, w') ->
  exists l, sent w' = sent w ++ l
    /\ forall o, o ∈ objs ->
         exists_ o (files w) = Ok true
         \/ exists o' sha, o' ∈ objs /\ filename o' = filename o
              /\ __getitem__ o' "sha256sum" = Ok sha
              /\ FETCH (get_server_url ("/packages/" +:+ uid_
                                        +:+ "/objects/" +:+ format_value sha))
                 ∈ l.
Proof.
  revert w. induction objs as [|obj rest IH]; intros w; simpl.
  - intros [= <-]. exists []. rewrite app_nil_r. split; [done|].
    intros o Ho. by apply elem_of_nil in Ho.
  - destruct (__getitem__ obj "sha256sum") as [sha|] eqn:Hsha;
      [|discriminate].
    destruct (download obj _ w) as [[[]|] w1] eqn:Hd; [|discriminate].
    intros Hrest. destruct (IH w1 Hrest) as (l2 & Hs2 & Hall2).
    assert (Hlater : forall o, o ∈ rest ->
              (exists o' sha', o' ∈ rest /\ filename o' = filename o
                 /\ __getitem__ o' "sha256sum" = Ok sha'
                 /\ FETCH (get_server_url
                             ("/packages/" +:+ uid_ +:+ "/objects/"
                              +:+ format_value sha')) ∈ l2) ->
              forall l1, exists o' sha', o' ∈ obj :: rest
                 /\ filename o' = filename o
                 /\ __getitem__ o' "sha256sum" = Ok sha'
                 /\ FETCH (get_server_url
                             ("/packages/" +:+ uid_ +:+ "/objects/"
                              +:+ format_value sha')) ∈ l1 ++ l2).
    { intros o Ho (o' & sha' & Ho' & Hfn' & Hsha' & Hin) l1.
      exists o', sha'. split; [by right|]. do 2 (split; [done|]).
      apply elem_of_app. by right. }
    apply download_Ok in Hd
      as [[Hex ->] | (fn & c & Hfn & Hnone & Hs1 & Hfiles)].
    + exists l2. split; [done|]. intros o Ho.
      apply elem_of_cons in Ho as [->|Ho]; [by left|].
      destruct (Hall2 o Ho) as [? | Hf]; [by left|]. right.
      by apply (Hlater o Ho Hf []).
    + exists ([FETCH (get_server_url ("/packages/" +:+ uid_ +:+ "/objects/"
                                      +:+ format_value sha))] ++ l2).
      split; [by rewrite Hs2, Hs1, <- app_assoc|].
      assert (Hfirst : exists o' sha', o' ∈ obj :: rest
                /\ filename o' = filename obj
                /\ __getitem__ o' "sha256sum" = Ok sha'
                /\ FETCH (get_server_url
                            ("/packages/" +:+ uid_ +:+ "/objects/"
                             +:+ format_value sha'))
                   ∈ [FETCH (get_server_url
                               ("/packages/" +:+ uid_ +:+ "/objects/"
                                +:+ format_value sha))] ++ l2).
      { exists obj, sha. split; [by left|]. do 2 (split; [done|]).
        by left. }
      intros o Ho. apply elem_of_cons in Ho as [->|Ho]; [by right|].
      destruct (Hall2 o Ho) as [Hex | Hf]; [|right; by apply Hlater].
      unfold exists_ in Hex |- *.
      destruct (filename o) as [[| | |fo|]|] eqn:Hfo; try done.
      destruct (decide (fo = fn)) as [->|Hne].
      * right. destruct Hfirst as (o' & sha' & ? & Hfn' & ? & ?).
        exists o', sha'. rewrite Hfn', Hfn. by repeat split.
      * left. rewrite Hfiles, lookup_insert_ne in Hex by done. done.
Qed.

Lemma filter_absent (objs : list BaseObject) (fs : gmap string bytes) o :
  o ∈ List.filter (absent fs) objs -> o ∈ objs /\ absent fs o = true.
Proof.
  intros Ho. apply list_elem_of_In, filter_In in Ho as [Ho Habs].
  split; [by apply list_elem_of_In | done].
Qed.

(** C3 (amended). For a package whose objects have a file name, answer
    for their expected digest and read files with a chunk size that is
    positive or -1.  The download list is decided before anything is
    fetched: when every file that is there has the expected SHA-256
    digest, the list is returned and holds exactly the objects whose file
    is missing (the others are skipped); when it is returned, every file
    that is there has the expected digest; when a file that is there has
    another digest, [download_objects] raises the download error naming
    such a file ("... will be overwritten") and the world is untouched
    (no request, no write).  Whatever [download_objects] does, every file
    that was there keeps its content and every request it issues is the
    fetch of an object whose file was missing, under the package uid and
    the object's [sha256sum]; when it returns, the file of every object
    is there, and for every object whose file was missing an object of
    that file name was fetched. *)
Theorem pull_overwrite_protection (p : Package) (uid_ : string) (w : World) :
  (forall o, o ∈ all (objects p) ->
     reads_the_file (chunk_size o) /\ addressable o) ->
  ((forall o fn c, o ∈ all (objects p) -> filename o = Ok (VStr fn) ->
      files w !! fn = Some c ->
      __getitem__ o "sha256sum" = Ok (VStr (sha256_hex c))) ->
   get_download_list p (files w)
   = Ok (List.filter (absent (files w)) (all (objects p))))
  /\ (forall l, get_download_list p (files w) = Ok l ->
     l = List.filter (absent (files w)) (all (objects p))
     /\ forall o fn c, o ∈ all (objects p) -> filename o = Ok (VStr fn) ->
          files w !! fn = Some c ->
          __getitem__ o "sha256sum" = Ok (VStr (sha256_hex c)))
  /\ (forall o fn c, o ∈ all (objects p) -> filename o = Ok (VStr fn) ->
        files w !! fn = Some c ->
        __getitem__ o "sha256sum" <> Ok (VStr (sha256_hex c)) ->
        exists o' fn' c', o' ∈ all (objects p)
          /\ filename o' = Ok (VStr fn') /\ files w !! fn' = Some c'
          /\ __getitem__ o' "sha256sum" <> Ok (VStr (sha256_hex c'))
          /\ download_objects p uid_ w
             = (Raise (DownloadError (fn' +:+ " will be overwritten")), w))
  /\ (forall r w', download_objects p uid_ w = (r, w') ->
        (forall fn c, files w !! fn = Some c -> files w' !! fn = Some c)
        /\ (exists l, sent w' = sent w ++ l
              /\ Forall (fetch_of uid_
                           (List.filter (absent (files w))
                              (all (objects p)))) l
              /\ (r = Ok tt ->
                  forall o, o ∈ List.filter (absent (files w))
                                  (all (objects p)) ->
                    exists o' sha,
                      o' ∈ List.filter (absent (files w)) (all (objects p))
                      /\ filename o' = filename o
                      /\ __getitem__ o' "sha256sum" = Ok sha
                      /\ FETCH (get_server_url
                                  ("/packages/" +:+ uid_ +:+ "/objects/"
                                   +:+ format_value sha)) ∈ l))
        /\ (r = Ok tt ->
            forall o, o ∈ all (objects p) ->
              exists_ o (files w') = Ok true)).
Proof.
  intros Hwf. split; [|split; [|split]].
  - intros Heq. by apply download_list_equal.
  - intros l Hl. apply download_list_Ok; [|done]. intros; by apply Hwf.
  - intros o fn c Ho Hfn Hc Hne.
    destruct (download_list_diverging _ _ _ _ _ Hwf Ho Hfn Hc Hne) as [e He].
    destruct (download_list_Raise _ _ _ Hwf He)
      as (o' & fn' & c' & Ho' & Hfn' & Hc' & Hne' & ->).
    exists o', fn', c'. repeat split; try done.
    unfold download_objects, get_download_list. by rewrite He.
  - intros r w'. unfold download_objects, get_download_list.
    destruct (download_list _ (files w)) as [l|] eqn:Hl.
    2:{ intros [= <- <-]. split; [done|]. split; [|done].
        exists []. rewrite app_nil_r. by repeat split. }
    pose proof Hl as Hl'.
    apply download_list_Ok in Hl' as [-> _]; [|intros; by apply Hwf].
    destruct (download_list_covers _ _ _ Hl) as [Hin _].
    intros Hd. destruct (download_each_log _ _ _ _ _ Hd) as [Hlog Hall].
    split; [by eapply download_each_keeps_files|]. split.
    + destruct Hlog as (l & Hs & Hf). exists l. do 2 (split; [done|]).
      intros ->. destruct (download_each_fetched _ _ _ _ Hd)
        as (l' & Hs' & Hfetched).
      assert (l' = l) as -> by (apply (app_inv_head (sent w)); congruence).
      intros o Ho. destruct (Hfetched o Ho) as [Hex | Hdone]; [|done].
      apply filter_absent in Ho as [_ Habs]. unfold absent in Habs.
      by rewrite Hex in Habs.
    + intros Hr o Ho. destruct (Hin o Ho) as [Hlist|Hex]; [by apply Hall|].
      eapply exists_kept; [|exact Hex]. by eapply download_each_keeps_files.
Qed.

End Pull2.

Section Validation.
Context `{ext : Externals}.

Lemma same_option_eq (a b : Option) :
  same_option a b = true <-> metadata a = metadata b.
Proof. apply String.eqb_eq. Qed.

Lemma same_option_neq (a b : Option) :
  same_option a b = false <-> metadata a <> metadata b.
Proof. apply String.eqb_neq. Qed.

Lemma Options_get_name (key : string) (opt : Option) :
  Options_get key = Ok opt -> metadata opt = key.
Proof.
  unfold Options_get.
  destruct (find _ Options_registry) as [o|] eqn:Hf; [|discriminate].
  intros [= ->]. apply find_some in Hf as [_ Hf]. by apply String.eqb_eq.
Qed.

Lemma by_metadata_cons (o : Option) (v : value) vs :
  by_metadata ((o, v) :: vs) = <[metadata o := v]> (by_metadata vs).
Proof. reflexivity. Qed.

Lemma by_metadata_get (vs : list (Option * value)) (x : Option) :
  default VNone (by_metadata vs !! metadata x) = dict_get vs x.
Proof.
  induction vs as [|[k v] vs IH]; [done|].
  rewrite by_metadata_cons. simpl.
  destruct (same_option k x) eqn:Hk.
  - apply same_option_eq in Hk. rewrite Hk. by rewrite lookup_insert_eq.
  - apply same_option_neq in Hk. by rewrite lookup_insert_ne.
Qed.

Lemma by_metadata_dict_set (vs : list (Option * value)) (o : Option) v :
  by_metadata (dict_set vs o v) = <[metadata o := v]> (by_metadata vs).
Proof.
  induction vs as [|[k x] vs IH]; [done|]. simpl.
  destruct (same_option k o) eqn:Hk.
  - apply same_option_eq in Hk. rewrite !by_metadata_cons, Hk.
    by rewrite insert_insert_eq.
  - apply same_option_neq in Hk. rewrite !by_metadata_cons, IH.
    by apply insert_insert_ne.
Qed.

Lemma by_metadata_Some (vs : list (Option * value)) k v :
  by_metadata vs !! k = Some v -> exists x, (x, v) ∈ vs /\ metadata x = k.
Proof.
  induction vs as [|[o u] vs IH]; [done|].
  rewrite by_metadata_cons.
  destruct (decide (metadata o = k)) as [<-|Hne].
  - rewrite lookup_insert_eq. intros [= <-]. exists o. split; [by left|done].
  - rewrite lookup_insert_ne by done. intros H.
    destruct (IH H) as (x & Hx & Hk). exists x. split; [by right|done].
Qed.

Lemma NoDup_metadata_inj (opts : list Option) (x y : Option) :
  NoDup (metadata <$> opts) -> x ∈ opts -> y ∈ opts ->
  metadata x = metadata y -> x = y.
Proof.
  induction opts as [|o opts IH]; intros Hnd Hx Hy Heq.
  - by apply elem_of_nil in Hx.
  - rewrite fmap_cons in Hnd. apply NoDup_cons in Hnd as [Ho Hnd].
    apply elem_of_cons in Hx as [->|Hx]; apply elem_of_cons in Hy as [->|Hy];
      try done.
    + destruct Ho. rewrite Heq. by apply list_elem_of_fmap_2.
    + destruct Ho. rewrite <- Heq. by apply list_elem_of_fmap_2.
    + by apply IH.
Qed.

Lemma resolve_ext (c : ObjectClass) (values values' : gmap string value) x :
  values !! metadata x = values' !! metadata x ->
  resolve c values x = resolve c values' x.
Proof. unfold resolve. by intros ->. Qed.

Lemma resolve_all_ext (c : ObjectClass) (values values' : gmap string value)
    (opts : list Option) :
  (forall x, x ∈ opts -> resolve c values x = resolve c values' x) ->
  resolve_all c values opts = resolve_all c values' opts.
Proof.
  induction opts as [|o opts IH]; intros H; simpl; [done|].
  rewrite (H o) by (by left). rewrite IH; [done|].
  intros; apply H; by right.
Qed.

Lemma resolve_all_lookup (c : ObjectClass) (values : gmap string value)
    (opts : list Option) vs :
  NoDup (metadata <$> opts) ->
  resolve_all c values opts = Ok vs ->
  (forall x, x ∈ opts -> resolve c values x = Ok (by_metadata vs !! metadata x))
  /\ (forall k, k ∉ metadata <$> opts -> by_metadata vs !! k = None).
Proof.
  revert vs. induction opts as [|o opts IH]; intros vs Hnd; simpl.
  - intros [= <-]. split; [|done]. intros x Hx. by apply elem_of_nil in Hx.
  - apply NoDup_cons in Hnd as [Ho Hnd].
    destruct (resolve c values o) as [r|] eqn:Hr; [|discriminate].
    destruct (resolve_all c values opts) as [rs|] eqn:Hrs; [|discriminate].
    destruct (IH rs Hnd eq_refl) as [IH1 IH2].
    intros [= <-]. split.
    + intros x Hx. apply elem_of_cons in Hx as [->|Hx].
      * rewrite Hr. f_equal. destruct r as [v|].
        -- by rewrite by_metadata_cons, lookup_insert_eq.
        -- by rewrite IH2.
      * assert (metadata o <> metadata x).
        { intros Heq. apply Ho. rewrite Heq.
          apply list_elem_of_fmap. by exists x. }
        rewrite IH1 by done. f_equal. destruct r as [v|]; [|done].
        by rewrite by_metadata_cons, lookup_insert_ne.
    + intros k Hk. apply not_elem_of_cons in Hk as [Hk1 Hk2].
      destruct r as [v|]; [|by apply IH2].
      rewrite by_metadata_cons, lookup_insert_ne by done. by apply IH2.
Qed.

Lemma resolve_all_total (c : ObjectClass) (values : gmap string value)
    (opts : list Option) :
  (forall x, x ∈ opts -> exists r, resolve c values x = Ok r) ->
  exists vs, resolve_all c values opts = Ok vs.
Proof.
  induction opts as [|o opts IH]; intros H; simpl; [by eexists|].
  destruct (H o) as [r ->]; [by left|].
  destruct IH as [rs ->]; [intros; apply H; by right|]. by eexists.
Qed.

Lemma resolve_all_Ok_each (c : ObjectClass) (values : gmap string value)
    (opts : list Option) vs :
  resolve_all c values opts = Ok vs ->
  forall x, x ∈ opts -> exists r, resolve c values x = Ok r.
Proof.
  revert vs. induction opts as [|o opts IH]; intros vs; simpl.
  - intros _ x Hx. by apply elem_of_nil in Hx.
  - destruct (resolve c values o) as [r|] eqn:Hr; [|discriminate].
    destruct (resolve_all c values opts) as [rs|] eqn:Hrs; [|discriminate].
    intros _ x Hx. apply elem_of_cons in Hx as [->|Hx]; [by eexists|].
    by eapply IH.
Qed.

Lemma declared_key_iff (c : ObjectClass) (k : string) :
  declared_key c k <-> k ∈ metadata <$> (options c).
Proof.
  unfold declared_key. rewrite existsb_exists, list_elem_of_fmap.
  split.
  - intros (x & Hx & Hk). apply String.eqb_eq in Hk.
    exists x. split; [done|]. by apply list_elem_of_In.
  - intros (x & -> & Hx). exists x. split; [by apply list_elem_of_In|].
    apply String.eqb_refl.
Qed.

Lemma validate_options_Ok (c : ObjectClass) (values : gmap string value) vs :
  validate_options c values = Ok vs <->
  map_Forall (fun k _ => declared_key c k) values
  /\ resolve_all c values (options c) = Ok vs.
Proof.
  unfold validate_options, declared_key. case_bool_decide; [tauto|].
  split; [discriminate | tauto].
Qed.

(** Assigning a value its validator returns unchanged to a declared
    option of a valid object: the assignment succeeds, the object stays
    valid and only that key changes. *)
Lemma setitem_valid (o : BaseObject) (key : string) (v : value) :
  valid o -> accepts (cls o) key (eq v) -> is_None v = false ->
  exists vs', __setitem__ o key v = (Ok tt, set_values o vs')
    /\ valid (set_values o vs')
    /\ by_metadata vs' = <[key := v]> (by_metadata (_values o)).
Proof.
  intros [Hnd Hval] (opt & Hget & Hin & Hacc) Hv.
  specialize (Hacc v eq_refl).
  pose proof (Options_get_name _ _ Hget) as Hname.
  apply validate_options_Ok in Hval as [Hkeys Hres].
  destruct (resolve_all_lookup _ _ _ _ Hnd Hres) as [Hold Hold'].
  unfold __setitem__. rewrite Hget, Hacc. simpl.
  rewrite by_metadata_dict_set, Hname, insert_insert_eq.
  set (values := <[key := v]> (by_metadata (_values o))).
  assert (Hopt : resolve (cls o) values opt = Ok (Some v)).
  { unfold resolve, values. rewrite Hname, lookup_insert_eq. simpl.
    rewrite Hv. cbn. by rewrite Hv, Hacc. }
  assert (Hother : forall x, x ∈ options (cls o) -> metadata x <> key ->
            resolve (cls o) values x
            = resolve (cls o) (by_metadata (_values o)) x).
  { intros x Hx Hne. apply resolve_ext. unfold values.
    by rewrite lookup_insert_ne. }
  destruct (resolve_all_total (cls o) values (options (cls o))) as [vs' Hvs'].
  { intros x Hx. destruct (decide (metadata x = key)) as [Hk|Hk].
    - assert (x = opt) as ->; [|by eexists].
      eapply NoDup_metadata_inj; eauto; congruence.
    - rewrite Hother by done. eapply resolve_all_Ok_each; eauto. }
  destruct (resolve_all_lookup _ _ _ _ Hnd Hvs') as [Hnew Hnew'].
  assert (Hmap : by_metadata vs' = values).
  { apply map_eq. intros k. unfold values.
    destruct (decide (k = key)) as [->|Hk].
    - rewrite lookup_insert_eq. specialize (Hnew opt Hin).
      rewrite Hopt, Hname in Hnew. by injection Hnew as <-.
    - rewrite lookup_insert_ne by done.
      destruct (decide (k ∈ metadata <$> (options (cls o)))) as [Hd|Hd].
      + apply list_elem_of_fmap in Hd as (x & -> & Hx).
        specialize (Hnew x Hx). specialize (Hold x Hx).
        rewrite Hother, Hold in Hnew by done. by injection Hnew as <-.
      + by rewrite Hnew', Hold'. }
  assert (Hkeys' : map_Forall (fun k _ => declared_key (cls o) k) values).
  { unfold values. apply map_Forall_insert_2; [|done].
    apply declared_key_iff. rewrite <- Hname.
    apply list_elem_of_fmap. by exists opt. }
  assert (Hvalid' : validate_options (cls o) values = Ok vs').
  { by apply validate_options_Ok. }
  exists vs'. rewrite Hvalid'. repeat split; try done.
  simpl. by rewrite Hmap.
Qed.

End Validation.

Section Loading.
Context `{ext : Externals}.

Lemma accepts_weaken (c : ObjectClass) (key : string) (P Q : value -> Prop) :
  (forall v, Q v -> P v) -> accepts c key P -> accepts c key Q.
Proof.
  intros HPQ (opt & ? & ? & Hacc). exists opt. repeat split; try done.
  intros v Hv. by apply Hacc, HPQ.
Qed.

Lemma getitem_frame (o o' : BaseObject) (key : string) :
  cls o' = cls o ->
  by_metadata (_values o') !! key = by_metadata (_values o) !! key ->
  __getitem__ o' key = __getitem__ o key.
Proof.
  intros Hcls Hkey. unfold __getitem__.
  destruct (Options_get key) as [opt|] eqn:Hget; [|done].
  apply Options_get_name in Hget as <-.
  by rewrite Hcls, <- !by_metadata_get, Hkey.
Qed.

Lemma load_valid (o : BaseObject) (fs : gmap string bytes) fn data :
  valid o -> loadable (cls o) ->
  filename o = Ok (VStr fn) -> fs !! fn = Some data ->
  reads_the_file (chunk_size o) ->
  exists vs',
    load o fs = (Ok tt, set_md5 (set_values o vs')
                          (Some (md5_hexdigest data)))
    /\ valid (set_values o vs')
    /\ by_metadata vs'
       = <["size" := VInt (Z.of_nat (length data))]>
           (<["sha256sum" := VStr (sha256_hex data)]>
              (by_metadata (_values o))).
Proof.
  intros Hvalid [Hsha Hsize] Hfn Hdata Hcs.
  destruct (iter_readable o fs fn data Hfn Hdata Hcs) as (chunks & Hit & Hh).
  unfold load. rewrite Hit, Hh.
  destruct (setitem_valid o "sha256sum" (VStr (sha256_hex data)))
    as (vs1 & -> & Hvalid1 & Hmap1); [done| |done|].
  { eapply accepts_weaken; [|exact Hsha]. intros v <-. by eexists. }
  set (o1 := set_values o vs1) in *.
  assert (Hfn1 : filename o1 = Ok (VStr fn)).
  { rewrite <- Hfn. apply getitem_frame; [done|]. simpl.
    by rewrite Hmap1, lookup_insert_ne. }
  unfold size. rewrite Hfn1. simpl. rewrite Hdata.
  destruct (setitem_valid o1 "size" (VInt (Z.of_nat (length data))))
    as (vs2 & -> & Hvalid2 & Hmap2); [done| |done|].
  { eapply accepts_weaken; [|exact Hsize]. intros v <-. by eexists. }
  exists vs2. split; [done|]. split; [exact Hvalid2|].
  rewrite Hmap2. unfold o1. simpl. by rewrite Hmap1.
Qed.

End Loading.

Section Serialization.
Context `{ext : Externals}.

Lemma ic_frame (o o' : BaseObject) (fs : gmap string bytes)
    (md md' mdr : gmap string value) :
  cls o' = cls o -> filename o' = filename o ->
  (forall k, k ∈ ic_keys -> md' !! k = md !! k) ->
  _metadata_install_condition o fs md = Ok mdr ->
  exists mdr', _metadata_install_condition o' fs md' = Ok mdr'
    /\ forall k, k ∉ ic_keys -> k <> "install-if-different" ->
         mdr' !! k = md' !! k.
Proof.
  intros Hcls Hfn Hag.
  assert (H1 : md' !! "install-condition" = md !! "install-condition")
    by (apply Hag; unfold ic_keys; repeat first [by left | right]).
  assert (H2 : md' !! "install-condition-pattern-type"
               = md !! "install-condition-pattern-type")
    by (apply Hag; unfold ic_keys; repeat first [by left | right]).
  assert (H3 : md' !! "install-condition-pattern"
               = md !! "install-condition-pattern")
    by (apply Hag; unfold ic_keys; repeat first [by left | right]).
  assert (H4 : md' !! "install-condition-seek"
               = md !! "install-condition-seek")
    by (apply Hag; unfold ic_keys; repeat first [by left | right]).
  assert (H5 : md' !! "install-condition-buffer-size"
               = md !! "install-condition-buffer-size")
    by (apply Hag; unfold ic_keys; repeat first [by left | right]).
  assert (Hframe : forall k, k ∉ ic_keys ->
            k <> "install-condition" /\ k <> "install-condition-pattern-type"
            /\ k <> "install-condition-pattern"
            /\ k <> "install-condition-seek"
            /\ k <> "install-condition-buffer-size").
  { intros k Hk. unfold ic_keys in Hk.
    repeat (apply not_elem_of_cons in Hk as [? Hk]). done. }
  unfold _metadata_install_condition, pop. rewrite Hcls, Hfn.
  destruct (allow_install_condition (cls o)); simpl.
  2:{ intros _. by eexists. }
  rewrite H1. destruct (md !! "install-condition") as [cond|]; simpl;
    [|discriminate].
  destruct (str_eq cond "content-diverges").
  { intros _. eexists. split; [done|]. intros k Hk Hk'.
    destruct (Hframe k Hk) as (? & ? & ? & ? & ?).
    by rewrite lookup_insert_ne, lookup_delete_ne. }
  destruct (str_eq cond "version-diverges").
  2:{ intros _. eexists. split; [done|]. intros k Hk Hk'.
      destruct (Hframe k Hk) as (? & ? & ? & ? & ?).
      by rewrite lookup_delete_ne. }
  rewrite !lookup_delete_ne by done. rewrite H2.
  destruct (md !! "install-condition-pattern-type") as [backend|]; simpl;
    [|discriminate].
  destruct (str_eq backend "linux-kernel" || str_eq backend "u-boot").
  { destruct (filename o) as [fn|]; [|discriminate].
    destruct (get_version fs fn backend None); [|discriminate].
    intros _. eexists. split; [done|]. intros k Hk Hk'.
    destruct (Hframe k Hk) as (? & ? & ? & ? & ?).
    by rewrite lookup_insert_ne, !lookup_delete_ne. }
  rewrite !lookup_delete_ne by done. rewrite H3.
  destruct (md !! "install-condition-pattern") as [regexp|]; simpl;
    [|discriminate].
  rewrite !lookup_delete_ne by done. rewrite H4.
  destruct (md !! "install-condition-seek") as [seek|]; simpl;
    [|discriminate].
  rewrite !lookup_delete_ne by done. rewrite H5.
  destruct (md !! "install-condition-buffer-size") as [buffer_size|]; simpl;
    [|discriminate].
  destruct (filename o) as [fn|]; [|discriminate].
  destruct regexp; try discriminate.
  destruct (get_version fs fn backend _); [|discriminate].
  intros _. eexists. split; [done|]. intros k Hk Hk'.
  destruct (Hframe k Hk) as (? & ? & ? & ? & ?).
  by rewrite lookup_insert_ne, !lookup_delete_ne.
Qed.

(** What [metadata()] returns for a valid object on a readable file, up
    to the compression step. *)
Lemma metadata_valid (o : BaseObject) (fs : gmap string bytes) fn data :
  valid o -> loadable (cls o) ->
  filename o = Ok (VStr fn) -> fs !! fn = Some data ->
  reads_the_file (chunk_size o) ->
  install_condition_resolves o fs ->
  exists vs' md1,
    let o1 := set_md5 (set_values o vs') (Some (md5_hexdigest data)) in
    metadata_ o fs = (_metadata_compression o1 fs md1, o1)
    /\ valid (set_values o vs')
    /\ filename o1 = Ok (VStr fn)
    /\ by_metadata vs'
       = <["size" := VInt (Z.of_nat (length data))]>
           (<["sha256sum" := VStr (sha256_hex data)]>
              (by_metadata (_values o)))
    /\ forall k, k ∉ ic_keys -> k <> "install-if-different" ->
         k <> "mode" -> md1 !! k = by_metadata vs' !! k.
Proof.
  intros Hvalid Hload Hfn Hdata Hcs [mdr Hic].
  destruct (load_valid o fs fn data) as (vs' & Hl & Hvalid' & Hmap);
    try done.
  set (o1 := set_md5 (set_values o vs') (Some (md5_hexdigest data))).
  assert (Hfn1 : filename o1 = Ok (VStr fn)).
  { rewrite <- Hfn. apply getitem_frame; [done|]. simpl.
    by rewrite Hmap, !lookup_insert_ne. }
  destruct (ic_frame o o1 fs (by_metadata (_values o))
              (<["mode" := VStr (mode (cls o1))]> (by_metadata vs')) mdr)
    as (md1 & Hic1 & Hframe); try done.
  { congruence. }
  { intros k Hk.
    assert (k <> "mode" /\ k <> "size" /\ k <> "sha256sum") as (? & ? & ?).
    { unfold ic_keys in Hk.
      repeat (apply elem_of_cons in Hk as [->|Hk]; [done|]).
      by apply elem_of_nil in Hk. }
    by rewrite Hmap, !lookup_insert_ne. }
  exists vs', md1. simpl. unfold metadata_. rewrite Hl. fold o1.
  simpl in Hic1. simpl. rewrite Hic1.
  do 4 (split; [done|]).
  intros k Hk Hk' Hmode. rewrite Hframe by done.
  by rewrite lookup_insert_ne.
Qed.

Lemma compression_step (o : BaseObject) (fs : gmap string bytes)
    (fnv : value) (md1 : gmap string value) :
  filename o = Ok fnv ->
  exists md, _metadata_compression o fs md1 = Ok md
    /\ (forall k, k <> "compressed" -> k <> "required-uncompressed-size" ->
          md !! k = md1 !! k)
    /\ (allow_compression (cls o) = true ->
        (match get_uncompressed_size fs fnv (get_compressor_format fs fnv)
         with
         | Some sz => md !! "compressed" = Some (VBool true)
                      /\ md !! "required-uncompressed-size" = Some (VInt sz)
         | None => md = md1
         end)).
Proof.
  intros Hfn. unfold _metadata_compression. unfold filename in Hfn.
  destruct (allow_compression (cls o)); [|by eexists].
  rewrite Hfn.
  destruct (get_uncompressed_size fs fnv (get_compressor_format fs fnv)).
  - eexists. split; [done|]. split.
    + intros k ? ?. by rewrite !lookup_insert_ne.
    + intros _. by rewrite lookup_insert_eq, lookup_insert_ne,
        lookup_insert_eq.
  - by eexists.
Qed.

(** C6 (amended). For every object in the state creation and accepted
    updates leave it in ([valid]), of a class that declares [sha256sum]
    and [size] ([loadable]), whose file is readable, whose chunk size is
    positive or -1 and whose install condition resolves: [metadata()]
    returns, it holds [sha256sum] and [size], and they are the SHA-256
    digest and the length of the file as it is when the metadata is built,
    whatever the object had stored before. *)
Theorem metadata_has_fresh_hash_and_size (o : BaseObject)
    (fs : gmap string bytes) (fn : string) (data : bytes) :
  valid o -> loadable (cls o) ->
  filename o = Ok (VStr fn) -> fs !! fn = Some data ->
  reads_the_file (chunk_size o) ->
  install_condition_resolves o fs ->
  exists md o1, metadata_ o fs = (Ok md, o1)
    /\ md !! "sha256sum" = Some (VStr (sha256_hex data))
    /\ md !! "size" = Some (VInt (Z.of_nat (length data))).
Proof.
  intros Hvalid Hload Hfn Hdata Hcs Hic.
  destruct (metadata_valid o fs fn data)
    as (vs' & md1 & Hmd & _ & Hfn1 & Hmap & Hframe); try done.
  simpl in Hmd, Hfn1.
  destruct (compression_step _ fs _ md1 Hfn1) as (md & Hc & Hkeep & _).
  exists md, (set_md5 (set_values o vs') (Some (md5_hexdigest data))).
  rewrite Hmd, Hc. split; [done|].
  assert (Hnot : forall k, k = "sha256sum" \/ k = "size" -> k ∉ ic_keys).
  { intros k [H | H]; subst k; unfold ic_keys;
      repeat (apply not_elem_of_cons; split; [done|]);
      apply not_elem_of_nil. }
  split.
  - rewrite Hkeep, Hframe, Hmap by (try done; apply Hnot; by left).
    by rewrite lookup_insert_ne, lookup_insert_eq.
  - rewrite Hkeep, Hframe, Hmap by (try done; apply Hnot; by right).
    by rewrite lookup_insert_eq.
Qed.

End Serialization.

Section RoundTrip.
Context `{ext : Externals}.

Lemma resolve_all_template (c : ObjectClass) (values : gmap string value)
    (opts : list Option) vs :
  NoDup (metadata <$> opts) ->
  resolve_all c values opts = Ok vs ->
  (forall x, x ∈ opts ->
     stored_template vs !! metadata x
     = if volatile x then None else by_metadata vs !! metadata x)
  /\ (forall k, k ∉ metadata <$> opts -> stored_template vs !! k = None).
Proof.
  unfold stored_template.
  revert vs. induction opts as [|o opts IH]; intros vs Hnd; simpl.
  - intros [= <-]. split; [|done]. intros x Hx. by apply elem_of_nil in Hx.
  - rewrite fmap_cons in Hnd. apply NoDup_cons in Hnd as [Ho Hnd].
    destruct (resolve c values o) as [r|] eqn:Hr; [|discriminate].
    destruct (resolve_all c values opts) as [rs|] eqn:Hrs; [|discriminate].
    destruct (IH rs Hnd eq_refl) as [IH1 IH2].
    destruct (resolve_all_lookup _ _ _ _ Hnd Hrs) as [_ Hout].
    intros [= <-]. split.
    + intros x Hx. apply elem_of_cons in Hx as [->|Hx].
      * destruct r as [v|].
        -- rewrite filter_cons. simpl.
           destruct (decide (volatile o = false)) as [Hv|Hv].
           ++ by rewrite Hv, !by_metadata_cons, !lookup_insert_eq.
           ++ apply not_false_is_true in Hv. rewrite Hv. by apply IH2.
        -- rewrite IH2, Hout by done. by destruct (volatile o).
      * assert (metadata o <> metadata x).
        { intros Heq. apply Ho. rewrite Heq. by apply list_elem_of_fmap_2. }
        destruct r as [v|]; [|by apply IH1].
        rewrite filter_cons. simpl.
        destruct (decide (volatile o = false)).
        -- rewrite !by_metadata_cons, !lookup_insert_ne by done.
           by apply IH1.
        -- rewrite by_metadata_cons, lookup_insert_ne by done. by apply IH1.
    + intros k Hk. apply not_elem_of_cons in Hk as [Hk1 Hk2].
      destruct r as [v|]; [|by apply IH2].
      rewrite filter_cons. simpl.
      destruct (decide (volatile o = false)); [|by apply IH2].
      rewrite by_metadata_cons, lookup_insert_ne by done. by apply IH2.
Qed.

Lemma resolve_None (c : ObjectClass) (values : gmap string value) x :
  resolve c values x = Ok None ->
  is_None (opt_default x) = true /\ is_required c x = false
  /\ is_None (default VNone (values !! metadata x)) = true.
Proof.
  unfold resolve.
  destruct (is_None (default VNone (values !! metadata x))) eqn:Hg.
  - destruct (is_None (opt_default x)) eqn:Hd.
    + by destruct (is_required c x).
    + by destruct (validate x (mode c) (opt_default x)).
  - rewrite Hg. by destruct (validate x (mode c) _).
Qed.

Lemma resolve_Some (c : ObjectClass) (values : gmap string value) x u :
  resolve c values x = Ok (Some u) ->
  exists v, validate x (mode c) v = Some u.
Proof.
  unfold resolve.
  set (v := if is_None (default VNone (values !! metadata x))
            then opt_default x else default VNone (values !! metadata x)).
  destruct (is_None v).
  - by destruct (is_required c x).
  - destruct (validate x (mode c) v) as [u'|] eqn:Hv; [|discriminate].
    intros [= <-]. by exists v.
Qed.

(** Re-validating the template of validated values resolves every option
    to what the template holds for it. *)
Lemma resolve_template (c : ObjectClass) (values : gmap string value) vs x :
  well_formed c -> resolve_all c values (options c) = Ok vs ->
  x ∈ options c ->
  resolve c (stored_template vs) x = Ok (stored_template vs !! metadata x).
Proof.
  intros (Hnd & _ & Hidem & Hvol) Hres Hx.
  destruct (resolve_all_lookup _ _ _ _ Hnd Hres) as [Hold _].
  destruct (resolve_all_template _ _ _ _ Hnd Hres) as [Htpl _].
  specialize (Hold x Hx). specialize (Htpl x Hx). rewrite Htpl.
  destruct (volatile x) eqn:Hv.
  - destruct (Hvol x Hx Hv) as [Hreq Hdef].
    unfold resolve. rewrite Htpl. simpl. by rewrite Hdef, Hreq.
  - destruct (by_metadata vs !! metadata x) as [u|] eqn:Hu.
    + destruct (resolve_Some _ _ _ _ Hold) as [v Hval].
      destruct (Hidem x v u Hx Hval) as [Hfix Hnn].
      unfold resolve. rewrite Htpl. simpl. rewrite Hnn. cbn.
      by rewrite Hnn, Hfix.
    + destruct (resolve_None _ _ _ Hold) as (Hdef & Hreq & _).
      unfold resolve. rewrite Htpl. simpl. by rewrite Hdef, Hreq.
Qed.

(** C7. For a class with distinct option names none of which is [mode],
    idempotent validators and optional, default-less volatile options:
    an object created from valid options, serialized with [template()]
    and created again from that template (less its [mode] entry, as
    [Package.from_file] does) has the same value for every non-volatile
    option and the same template.  The template maps [mode] to the mode
    and otherwise holds exactly the stored non-volatile options; it is a
    function of the object alone, no file is read. *)
Theorem template_round_trip (c : ObjectClass) (values : gmap string value)
    (o : BaseObject) :
  well_formed c -> BaseObject_init c values = Ok o ->
  template o !! "mode" = Some (VStr (mode c))
  /\ (forall k v, k <> "mode" ->
        (template o !! k = Some v <->
         exists x, x ∈ options c /\ volatile x = false /\ metadata x = k
                   /\ by_metadata (_values o) !! k = Some v))
  /\ exists o', BaseObject_init c (delete "mode" (template o)) = Ok o'
       /\ (forall x, x ∈ options c -> volatile x = false ->
             dict_get (_values o') x = dict_get (_values o) x)
       /\ template o' = template o.
Proof.
  intros Hwf. pose proof Hwf as (Hnd & Hmode & Hidem & Hvol).
  unfold BaseObject_init.
  destruct (validate_options c values) as [vs|] eqn:Hval; [|discriminate].
  intros [= <-]. unfold template. simpl.
  apply validate_options_Ok in Hval as [_ Hres].
  destruct (resolve_all_lookup _ _ _ _ Hnd Hres) as [Hold Hold'].
  destruct (resolve_all_template _ _ _ _ Hnd Hres) as [Htpl Htpl'].
  fold (stored_template vs).
  assert (Hnomode : "mode" ∉ metadata <$> options c).
  { intros Hin. apply list_elem_of_fmap in Hin as (x & Heq & Hx).
    by apply (Hmode x Hx). }
  split; [by rewrite lookup_insert_eq|]. split.
  { intros k v Hk. rewrite lookup_insert_ne by done. split.
    - intros Hsome.
      destruct (decide (k ∈ metadata <$> options c)) as [Hin|Hin].
      + apply list_elem_of_fmap in Hin as (x & -> & Hx).
        rewrite Htpl in Hsome by done.
        destruct (volatile x) eqn:Hv; [done|]. by exists x.
      + by rewrite Htpl' in Hsome.
    - intros (x & Hx & Hv & <- & Hsome). by rewrite Htpl, Hv. }
  rewrite delete_insert_id by (by apply Htpl').
  destruct (resolve_all_total c (stored_template vs) (options c))
    as [vs2 Hres2].
  { intros x Hx. eexists. by eapply resolve_template. }
  destruct (resolve_all_lookup _ _ _ _ Hnd Hres2) as [Hnew Hnew'].
  destruct (resolve_all_template _ _ _ _ Hnd Hres2) as [Htpl2 Htpl2'].
  assert (Hsame : forall x, x ∈ options c ->
            by_metadata vs2 !! metadata x = stored_template vs !! metadata x).
  { intros x Hx. specialize (Hnew x Hx).
    rewrite (resolve_template c values vs x Hwf Hres Hx) in Hnew.
    by injection Hnew. }
  assert (Hval2 : validate_options c (stored_template vs) = Ok vs2).
  { apply validate_options_Ok. split; [|done].
    intros k v Hsome. apply declared_key_iff.
    destruct (decide (k ∈ metadata <$> options c)); [done|].
    by rewrite Htpl' in Hsome. }
  rewrite Hval2. eexists. split; [done|]. simpl. split.
  - intros x Hx Hv. rewrite <- !by_metadata_get, Hsame by done.
    by rewrite Htpl, Hv.
  - f_equal. fold (stored_template vs2). apply map_eq. intros k.
    destruct (decide (k ∈ metadata <$> options c)) as [Hin|Hin].
    + apply list_elem_of_fmap in Hin as (x & -> & Hx).
      rewrite Htpl2, Hsame by done. rewrite Htpl by done.
      by destruct (volatile x).
    + by rewrite Htpl2', Htpl'.
Qed.

End RoundTrip.

Section Push.
Context `{ext : Externals}.

Lemma setitem_same (o o' : BaseObject) (key : string) (v : value) r :
  __setitem__ o key v = (r, o') -> same_object o o'.
Proof.
  unfold __setitem__. destruct (Options_get key); [|by intros [= <- <-]].
  destruct (validate _ _ v); [|by intros [= <- <-]].
  simpl. destruct (validate_options _ _); by intros [= <- <-].
Qed.

Lemma load_same (o o1 : BaseObject) (fs : gmap string bytes) r :
  load o fs = (r, o1) -> same_object o o1.
Proof.
  unfold load. destruct (__iter__ o fs); [|by intros [= <- <-]].
  destruct (__setitem__ o "sha256sum" _) as [[] oa] eqn:Ha;
    apply setitem_same in Ha as [Ha1 Ha2]; [|by intros [= <- <-]].
  destruct (size oa fs); [|by intros [= <- <-]].
  destruct (__setitem__ oa "size" _) as [[] ob] eqn:Hb;
    apply setitem_same in Hb as [Hb1 Hb2]; intros [= <- <-];
    split; simpl; congruence.
Qed.

Lemma metadata_same (o o1 : BaseObject) (fs : gmap string bytes) r :
  metadata_ o fs = (r, o1) -> same_object o o1.
Proof.
  unfold metadata_. destruct (load o fs) as [[] oa] eqn:Hl;
    apply load_same in Hl; by intros [= <- <-].
Qed.

Lemma set_metadata_same (s s1 : list BaseObject) (fs : gmap string bytes) r :
  set_metadata s fs = (r, s1) -> Forall2 same_object s s1.
Proof.
  revert r s1. induction s as [|o s IH]; intros r s1; simpl.
  - intros [= <- <-]. constructor.
  - destruct (metadata_ o fs) as [[md|e] o1] eqn:Hm;
      apply metadata_same in Hm.
    + destruct (set_metadata s fs) as [[mds|e] rest1] eqn:Hs;
        intros [= <- <-]; constructor; eauto.
    + intros [= <- <-]. constructor; [done|].
      apply Forall2_same_length_lookup. split; [done|].
      intros i x y Hx Hy. assert (x = y) as -> by congruence. done.
Qed.

Lemma sets_metadata_same (ss ss1 : list (list BaseObject))
    (fs : gmap string bytes) r :
  sets_metadata ss fs = (r, ss1) -> Forall2 (Forall2 same_object) ss ss1.
Proof.
  assert (Hrefl : forall l : list BaseObject, Forall2 same_object l l).
  { intros l. apply Forall2_same_length_lookup. split; [done|].
    intros i x y Hx Hy. assert (x = y) as -> by congruence. done. }
  revert r ss1. induction ss as [|s ss IH]; intros r ss1; simpl.
  - intros [= <- <-]. constructor.
  - destruct (set_metadata s fs) as [[md|e] s1] eqn:Hm;
      apply set_metadata_same in Hm.
    + destruct (sets_metadata ss fs) as [[mds|e] rest1] eqn:Hs;
        intros [= <- <-]; constructor; eauto.
    + intros [= <- <-]. constructor; [done|].
      apply Forall2_same_length_lookup. split; [done|].
      intros i x y Hx Hy. assert (x = y) as -> by congruence. apply Hrefl.
Qed.

Lemma load_reloaded (o o1 : BaseObject) (fs : gmap string bytes) :
  valid o -> loadable (cls o) -> load o fs = (Ok tt, o1) ->
  valid o1 /\ reloaded o o1.
Proof.
  intros Hvalid [Hsha Hsize]. unfold load.
  destruct (__iter__ o fs) as [chunks|]; [|discriminate].
  destruct (setitem_valid o "sha256sum"
              (VStr (sha256_hex (fold_left hash_update chunks []))))
    as (vs1 & -> & Hvalid1 & Hmap1); [done| |done|].
  { eapply accepts_weaken; [|exact Hsha]. intros v <-. by eexists. }
  destruct (size (set_values o vs1) fs) as [sz|] eqn:Hsz; [|discriminate].
  assert (exists n : nat, sz = Z.of_nat n) as [n ->].
  { unfold size in Hsz. destruct (filename _); [|discriminate].
    destruct (read_file fs _); [|discriminate].
    injection Hsz as <-. by eexists. }
  destruct (setitem_valid (set_values o vs1) "size" (VInt (Z.of_nat n)))
    as (vs2 & -> & Hvalid2 & Hmap2); [done| |done|].
  { eapply accepts_weaken; [|exact Hsize]. intros v <-. by eexists. }
  intros [= <-]. split; [exact Hvalid2|].
  intros k Hk1 Hk2. simpl. rewrite Hmap2. simpl. rewrite Hmap1.
  by rewrite !lookup_insert_ne.
Qed.

Lemma set_metadata_reloaded (s s1 : list BaseObject)
    (fs : gmap string bytes) mds :
  Forall (fun o => valid o /\ loadable (cls o)) s ->
  set_metadata s fs = (Ok mds, s1) -> Forall2 reloaded s s1.
Proof.
  revert mds s1. induction s as [|o s IH]; intros mds s1 Hs; simpl.
  - intros [= <- <-]. constructor.
  - apply Forall_cons in Hs as [[Hv Hl] Hs].
    destruct (metadata_ o fs) as [[md|e] o1] eqn:Hm; [|discriminate].
    destruct (set_metadata s fs) as [[mds'|e] rest1] eqn:Hrest;
      [|discriminate].
    intros [= <- <-]. constructor; [|by eapply IH].
    unfold metadata_ in Hm.
    destruct (load o fs) as [[[]|] oa] eqn:Hload; [|discriminate].
    injection Hm as _ <-. by eapply load_reloaded.
Qed.

Lemma sets_metadata_reloaded (ss ss1 : list (list BaseObject))
    (fs : gmap string bytes) mds :
  Forall (Forall (fun o => valid o /\ loadable (cls o))) ss ->
  sets_metadata ss fs = (Ok mds, ss1) -> Forall2 (Forall2 reloaded) ss ss1.
Proof.
  revert mds ss1. induction ss as [|s ss IH]; intros mds ss1 Hs; simpl.
  - intros [= <- <-]. constructor.
  - apply Forall_cons in Hs as [Hs Hss].
    destruct (set_metadata s fs) as [[md|e] s1] eqn:Hm; [|discriminate].
    destruct (sets_metadata ss fs) as [[mds'|e] rest1] eqn:Hrest;
      [|discriminate].
    intros [= <- <-]. constructor; [|by eapply IH].
    by eapply set_metadata_reloaded.
Qed.

Lemma Package_metadata_frame (p p1 : Package) (fs : gmap string bytes) r :
  Package_metadata p fs = (r, p1) ->
  p1 = set_objects p (objects p1)
  /\ manager_mode (objects p1) = manager_mode (objects p)
  /\ Forall2 (Forall2 same_object) (sets (objects p)) (sets (objects p1))
  /\ (is_Some (match r with Ok md => Some md | Raise _ => None end) ->
      Forall (Forall (fun o => valid o /\ loadable (cls o)))
        (sets (objects p)) ->
      Forall2 (Forall2 reloaded) (sets (objects p)) (sets (objects p1))).
Proof.
  unfold Package_metadata, manager_metadata. simpl.
  destruct (sets_metadata (sets (objects p)) fs) as [rs ss1] eqn:Hs.
  simpl. intros [= <- <-]. simpl. repeat split; try done.
  - by eapply sets_metadata_same.
  - intros Hok Hall. destruct rs as [mds|]; [|by destruct Hok].
    by eapply sets_metadata_reloaded.
Qed.

End Push.

Section Push2.
Context `{ext : Externals}.

Lemma send_log (w w' : World) (rq : request) r :
  send w rq = (r, w') -> w' = log_request w rq.
Proof. unfold send. destruct (server w (sent w) rq); by intros [= <- <-]. Qed.

Lemma upload_log (o : BaseObject) (package_uid : option string)
    (w w' : World) r :
  upload o package_uid w = (r, w') ->
  exists l, sent w' = sent w ++ l /\ Forall transfer_request l
    /\ forall x, r = Ok x ->
         exists sha, __getitem__ o "sha256sum" = Ok sha
                     /\ object_request package_uid o sha ∈ l.
Proof.
  unfold upload.
  destruct (__getitem__ o "sha256sum") as [sha|] eqn:Hsha.
  2:{ intros [= <- <-]. exists []. rewrite app_nil_r. by repeat split. }
  fold (object_request package_uid o sha).
  set (rq := object_request package_uid o sha).
  assert (Hone : forall w1, w1 = log_request w rq ->
            sent w1 = sent w ++ [rq] /\ Forall transfer_request [rq]
            /\ forall x : ObjectUploadResult, exists sha0, Ok sha = Ok sha0
                 /\ object_request package_uid o sha0 ∈ [rq]).
  { intros w1 ->. split; [done|]. split; [by repeat constructor|].
    intros _. exists sha. split; [done|]. by left. }
  destruct (send w rq) as [[resp|e] w1] eqn:Hsend; apply send_log in Hsend.
  2:{ intros [= <- <-]. exists [rq]. destruct (Hone w1 Hsend) as (?&?&?).
      by repeat split. }
  destruct (Hone w1 Hsend) as (Hs & Hf & Hin).
  destruct (status_code resp =? 200).
  { destruct (len o (files w1)); intros [= <- <-]; exists [rq];
      repeat split; try done; intros x _; apply (Hin x). }
  destruct (status_code resp =? 201).
  2:{ destruct (json resp); intros [= <- <-]; exists [rq];
        by repeat split. }
  destruct (json resp) as [| |body].
  1,2: intros [= <- <-]; exists [rq]; by repeat split.
  destruct (json_storage body) as [backend|].
  2:{ intros [= <- <-]. exists [rq]. by repeat split. }
  destruct (negb (existsb (String.eqb backend) STORAGES)).
  { intros [= <- <-]. exists [rq]. by repeat split. }
  destruct (json_url body) as [target|].
  2:{ intros [= <- <-]. exists [rq]. by repeat split. }
  unfold storage_upload.
  destruct (__iter__ o (files w1)) as [chunks|].
  2:{ intros [= <- <-]. exists [rq]. by repeat split. }
  assert (Htwo : sent (log_request w1 (STORAGE backend target chunks))
                 = sent w ++ [rq; STORAGE backend target chunks]).
  { simpl. rewrite Hs. by rewrite <- app_assoc. }
  destruct (server w1 (sent w1) (STORAGE backend target chunks));
    intros [= <- <-]; eexists; (split; [exact Htwo|]);
    (split; [by repeat constructor|]);
    intros x _; exists sha; (split; [done|]); by left.
Qed.

Lemma upload_each_log (objs : list BaseObject) (package_uid : option string)
    (w w' : World) r :
  upload_each objs package_uid w = (r, w') ->
  exists l, sent w' = sent w ++ l /\ Forall transfer_request l
    /\ forall results, r = Ok results ->
         length results = length objs
         /\ forall o, o ∈ objs ->
              exists sha, __getitem__ o "sha256sum" = Ok sha
                          /\ object_request package_uid o sha ∈ l.
Proof.
  revert w w' r. induction objs as [|obj rest IH]; intros w w' r; simpl.
  - intros [= <- <-]. exists []. rewrite app_nil_r.
    split; [done|]. split; [done|]. intros results [= <-].
    split; [done|]. intros o Ho. by apply elem_of_nil in Ho.
  - destruct (upload obj package_uid w) as [[x|e] w1] eqn:Hup;
      apply upload_log in Hup as (l1 & Hs1 & Hf1 & Hin1).
    2:{ intros [= <- <-]. exists l1. by repeat split. }
    destruct (upload_each rest package_uid w1) as [[rs|e] w2] eqn:Hrest;
      apply IH in Hrest as (l2 & Hs2 & Hf2 & Hin2); intros [= <- <-];
      exists (l1 ++ l2); rewrite Hs2, Hs1, <- app_assoc;
      (split; [done|]); (split; [by apply Forall_app|]); [|done].
    intros results [= <-]. destruct (Hin2 rs eq_refl) as [Hlen Hall].
    split; [simpl; by rewrite Hlen|].
    intros o Ho. apply elem_of_cons in Ho as [->|Ho].
    + destruct (Hin1 x eq_refl) as (sha & ? & ?). exists sha.
      split; [done|]. apply elem_of_app. by left.
    + destruct (Hall o Ho) as (sha & ? & ?). exists sha.
      split; [done|]. apply elem_of_app. by right.
Qed.

(** What [upload_metadata] does with the server's answer, once the
    metadata is computed and validated: the body is decoded first, then
    the status decides. *)
Lemma upload_metadata_answered (p p1 : Package) (w : World)
    (md : PackageMetadata) (resp : response) :
  Package_metadata p (files w) = (Ok md, p1) ->
  validate_metadata md = Ok tt ->
  server w (sent w) (metadata_request md) = Response resp ->
  (status_code resp <> 201 ->
     exists e,
       upload_metadata p w = (Raise e, p1, log_request w (metadata_request md))
       /\ forall body, json resp = Object body ->
            e = UploadError
                  ("It was not possible to start pushing:" +:+ newline
                   +:+ String.concat newline
                         (default [] (json_errors body))))
  /\ (status_code resp = 201 -> forall body u,
        json resp = Object body -> json_uid body = Some u ->
        upload_metadata p w
        = (Ok tt, set_uid p1 (Some u), log_request w (metadata_request md))).
Proof.
  intros Hmd Hval Hsrv. unfold upload_metadata. rewrite Hmd, Hval.
  fold (metadata_request md). unfold send. rewrite Hsrv. split.
  - intros Hst. apply Z.eqb_neq in Hst. rewrite Hst. simpl.
    destruct (json resp) as [| |body]; eexists; (split; [done|]);
      intros body'; try discriminate.
    by intros [= <-].
  - intros Hst body u Hbody Hu. apply Z.eqb_eq in Hst.
    by rewrite Hbody, Hst, Hu.
Qed.

(** [upload_metadata] returns only after a 201 whose body is a JSON
    object holding a uid. *)
Lemma upload_metadata_Ok (p p' : Package) (w w' : World) :
  upload_metadata p w = (Ok tt, p', w') ->
  exists md p1 resp body u,
    Package_metadata p (files w) = (Ok md, p1)
    /\ validate_metadata md = Ok tt
    /\ server w (sent w) (metadata_request md) = Response resp
    /\ status_code resp = 201 /\ json resp = Object body
    /\ json_uid body = Some u
    /\ p' = set_uid p1 (Some u)
    /\ w' = log_request w (metadata_request md).
Proof.
  unfold upload_metadata.
  destruct (Package_metadata p (files w)) as [[md|] p1] eqn:Hmd;
    [|discriminate].
  destruct (validate_metadata md) as [[]|] eqn:Hval; [|discriminate].
  fold (metadata_request md). unfold send.
  destruct (server w (sent w) (metadata_request md)) as [|resp] eqn:Hsrv;
    [discriminate|].
  destruct (json resp) as [| |body] eqn:Hbody; [discriminate| |].
  { by destruct (negb (status_code resp =? 201)). }
  destruct (status_code resp =? 201) eqn:Hst; simpl; [|discriminate].
  destruct (json_uid body) as [u|] eqn:Hu; [|discriminate].
  intros [= <- <-]. exists md, p1, resp, body, u.
  apply Z.eqb_eq in Hst. by repeat split.
Qed.

End Push2.

Section Push3.
Context `{ext : Externals}.

(** C5 (amended). The uid is assigned only by a metadata upload the
    server answers with 201: whatever [upload_metadata] does, the package
    keeps its version, product, mode and supported hardware and its
    objects stay the same objects; when it raises the uid is unchanged;
    it returns only when the metadata was computed and validated and the
    server answered the metadata request with status 201 and a JSON
    object holding a uid, and then that uid is stored and the metadata
    request is the one request issued.  Once the metadata is computed and
    validated and the server answers with a JSON object: a status other
    than 201 raises the upload error with the server's error list, and a
    201 stores the uid the object holds.  The objects were loaded by the
    serialization: for valid objects only [sha256sum] and [size] may
    differ among the stored values. *)
Theorem uid_assigned_only_after_201 (p : Package) (w : World) :
  (forall r p' w', upload_metadata p w = (r, p', w') ->
     p' = set_uid (set_objects p (objects p')) (uid p')
     /\ Forall2 (Forall2 same_object) (sets (objects p)) (sets (objects p'))
     /\ (forall e, r = Raise e -> uid p' = uid p)
     /\ (r = Ok tt ->
         exists md p1 resp body u,
           Package_metadata p (files w) = (Ok md, p1)
           /\ validate_metadata md = Ok tt
           /\ server w (sent w) (metadata_request md) = Response resp
           /\ status_code resp = 201 /\ json resp = Object body
           /\ json_uid body = Some u
           /\ p' = set_uid p1 (Some u)
           /\ w' = log_request w (metadata_request md)))
  /\ (forall md p1 resp body,
        Package_metadata p (files w) = (Ok md, p1) ->
        validate_metadata md = Ok tt ->
        server w (sent w) (metadata_request md) = Response resp ->
        json resp = Object body ->
        (status_code resp <> 201 ->
           upload_metadata p w
           = (Raise (UploadError
                       ("It was not possible to start pushing:" +:+ newline
                        +:+ String.concat newline
                              (default [] (json_errors body)))),
              p1, log_request w (metadata_request md))
           /\ uid p1 = uid p)
        /\ (status_code resp = 201 -> forall u, json_uid body = Some u ->
              upload_metadata p w
              = (Ok tt, set_uid p1 (Some u),
                 log_request w (metadata_request md)))
        /\ (Forall (Forall (fun o => valid o /\ loadable (cls o)))
              (sets (objects p)) ->
            Forall2 (Forall2 reloaded) (sets (objects p))
              (sets (objects p1)))).
Proof.
  split.
  - intros r p' w' Hup.
    assert (Hframe : p' = set_uid (set_objects p (objects p')) (uid p')
              /\ Forall2 (Forall2 same_object) (sets (objects p))
                   (sets (objects p'))
              /\ forall e, r = Raise e -> uid p' = uid p).
    { revert Hup. unfold upload_metadata.
      destruct (Package_metadata p (files w)) as [rmd p1] eqn:Hmd.
      destruct (Package_metadata_frame _ _ _ _ Hmd) as (Hp1 & _ & Hsame & _).
      assert (Hkeep : forall r0 w0, (r0, p1, w0) = (r, p', w') ->
                p' = set_uid (set_objects p (objects p')) (uid p')
                /\ Forall2 (Forall2 same_object) (sets (objects p))
                     (sets (objects p'))
                /\ forall e, r = Raise e -> uid p' = uid p).
      { intros r0 w0 [= <- <- <-]. split; [|split]; [|done|].
        - rewrite Hp1. by destruct p.
        - intros _ _. by rewrite Hp1. }
      destruct rmd as [md|]; [|apply Hkeep].
      destruct (validate_metadata md); [|apply Hkeep].
      destruct (send w _) as [[resp|] w1]; [|apply Hkeep].
      destruct (json resp) as [| |body]; [apply Hkeep| |].
      { destruct (negb (status_code resp =? 201)); apply Hkeep. }
      destruct (negb (status_code resp =? 201)); [apply Hkeep|].
      destruct (json_uid body) as [u|]; [|apply Hkeep].
      intros [= <- <- <-]. simpl. split; [|split]; [|done|done].
      rewrite Hp1. by destruct p. }
    destruct Hframe as (Hp' & Hsame & Hraise).
    do 3 (split; [done|]).
    intros ->. by apply upload_metadata_Ok.
  - intros md p1 resp body Hmd Hval Hsrv Hbody.
    destruct (upload_metadata_answered _ _ _ _ _ Hmd Hval Hsrv)
      as [Hrefused Hstored].
    destruct (Package_metadata_frame _ _ _ _ Hmd) as (Hp1 & _ & _ & Hre).
    split; [|split].
    + intros Hst. destruct (Hrefused Hst) as (e & Hup & He).
      rewrite (He body Hbody) in Hup. split; [exact Hup|]. by rewrite Hp1.
    + intros Hst u Hu. by apply (Hstored Hst body u).
    + intros Hall. apply Hre; [by eexists | done].
Qed.

(** C2 (amended). Once the metadata is computed and validated: when the
    server answers the metadata upload with a status other than 201,
    [push] raises and the metadata request is the only request issued,
    and the error is the upload error with the server's error list when
    the body of the answer is a JSON object; when it answers 201 with a
    JSON object holding a uid and every object of installation set 0 gets
    an upload result of which one is a failure, [push] raises the upload
    error although the uid is assigned and every object was negotiated,
    and no finalize request is issued. *)
Theorem push_sequencing (p : Package) (w : World) :
  (forall md p1 resp,
     Package_metadata p (files w) = (Ok md, p1) ->
     validate_metadata md = Ok tt ->
     server w (sent w) (metadata_request md) = Response resp ->
     status_code resp <> 201 ->
     exists e w1,
       push p w = (Raise e, p1, w1)
       /\ sent w1 = sent w ++ [metadata_request md]
       /\ forall body, json resp = Object body ->
            e = UploadError
                  ("It was not possible to start pushing:" +:+ newline
                   +:+ String.concat newline
                         (default [] (json_errors body))))
  /\ (forall md p1 resp body u objs results w2,
        Package_metadata p (files w) = (Ok md, p1) ->
        validate_metadata md = Ok tt ->
        server w (sent w) (metadata_request md) = Response resp ->
        status_code resp = 201 -> json resp = Object body ->
        json_uid body = Some u ->
        get_installation_set (objects p1) 0 = Ok objs ->
        upload_each objs (Some u) (log_request w (metadata_request md))
        = (Ok results, w2) ->
        FAIL ∈ results ->
        push p w
        = (Raise (UploadError "Some objects has not been fully uploaded"),
           set_uid p1 (Some u), w2)
        /\ length results = length objs
        /\ exists l,
             sent w2 = sent w ++ metadata_request md :: l
             /\ Forall transfer_request l
             /\ forall o, o ∈ objs ->
                  exists sha, __getitem__ o "sha256sum" = Ok sha
                              /\ object_request (Some u) o sha ∈ l).
Proof.
  split.
  - intros md p1 resp Hmd Hval Hsrv Hst.
    destruct (upload_metadata_answered _ _ _ _ _ Hmd Hval Hsrv)
      as [Hrefused _].
    destruct (Hrefused Hst) as (e & Hup & He).
    exists e, (log_request w (metadata_request md)).
    unfold push. rewrite Hup. done.
  - intros md p1 resp body u objs results w2
      Hmd Hval Hsrv Hst Hbody Hu Hobjs Hup Hfail.
    destruct (upload_metadata_answered _ _ _ _ _ Hmd Hval Hsrv)
      as [_ Hstored].
    pose proof (Hstored Hst body u Hbody Hu) as Hok.
    destruct (upload_each_log _ _ _ _ _ Hup) as (l & Hs & Hf & Hres).
    destruct (Hres results eq_refl) as [Hlen Hall].
    split; [|split; [done|]].
    + unfold push. rewrite Hok. unfold upload_objects. simpl.
      rewrite Hobjs, Hup.
      assert (forallb is_ok results = false) as ->; [|done].
      apply not_true_is_false. intros Hall_ok.
      rewrite forallb_forall in Hall_ok.
      by specialize (Hall_ok FAIL (proj1 (list_elem_of_In _ _) Hfail)).
    + exists l. split; [|done]. rewrite Hs. simpl.
      by rewrite <- app_assoc.
Qed.

End Push3.

Section ManagerFacts.
Context `{ext : Externals}.

(** C4 (amended). In a manager of the ActiveInactive mode, every
    create / get / update / remove that omits the installation-set index
    fails with the argument error ([TypeError]) and changes nothing.  In
    a manager of the Single mode the index is implicit: the same calls
    with the explicit index 0 are accepted and do exactly what the calls
    without index do. *)
Theorem installation_set_index_rule (m : InstallationSetManager) :
  length (sets m) = mode_value (manager_mode m) ->
  (manager_mode m = ActiveInactive ->
     (forall mode_name values, exists msg,
        manager_create m mode_name values None = (Raise (TypeError msg), m))
     /\ (forall i, exists msg, manager_get m i None = Raise (TypeError msg))
     /\ (forall i key v, exists msg,
           manager_update m i key v None = (Raise (TypeError msg), m))
     /\ (forall i, exists msg,
           manager_remove m i None = (Raise (TypeError msg), m)))
  /\ (manager_mode m = Single ->
        installation_set_index m (Some 0%nat) = Ok 0%nat
        /\ (forall mode_name values,
              manager_create m mode_name values (Some 0%nat)
              = manager_create m mode_name values None)
        /\ (forall i, manager_get m i (Some 0%nat) = manager_get m i None)
        /\ (forall i key v,
              manager_update m i key v (Some 0%nat)
              = manager_update m i key v None)
        /\ (forall i,
              manager_remove m i (Some 0%nat) = manager_remove m i None)).
Proof.
  intros Hlen. split.
  - intros Hmode.
    assert (Hidx : installation_set_index m None
                   = Raise (TypeError
                              "You must specify an installation set index")).
    { unfold installation_set_index, is_single. by rewrite Hmode. }
    repeat split; intros; eexists.
    + unfold manager_create. by rewrite Hidx.
    + unfold manager_get. by rewrite Hidx.
    + unfold manager_update. by rewrite Hidx.
    + unfold manager_remove. by rewrite Hidx.
  - intros Hmode. rewrite Hmode in Hlen. simpl in Hlen.
    assert (Hsome : installation_set_index m (Some 0%nat) = Ok 0%nat).
    { unfold installation_set_index. rewrite bool_decide_eq_true_2; [done|].
      lia. }
    assert (Hnone : installation_set_index m None = Ok 0%nat).
    { unfold installation_set_index, is_single. by rewrite Hmode. }
    split; [done|]. repeat split; intros.
    + unfold manager_create. by rewrite Hsome, Hnone.
    + unfold manager_get. by rewrite Hsome, Hnone.
    + unfold manager_update. by rewrite Hsome, Hnone.
    + unfold manager_remove. by rewrite Hsome, Hnone.
Qed.

End ManagerFacts.


Module FixtureFacts.
Import Fixture.
#[local] Existing Instance ext.

Example raw_class_statement :
  ObjectType_init (ext := ext0) raw_statement = Ok raw.
Proof. reflexivity. Qed.

Example ubifs_class_statement :
  ObjectType_init (ext := ext0) ubifs_statement = Ok ubifs.
Proof. reflexivity. Qed.

Example plain_template :
  template plain_object
  = <["mode" := VStr "raw"]> (<["install-condition" := VStr "always"]>
      (raw_values "base.txt")).
Proof. vm_compute. reflexivity. Qed.

Example plain_metadata :
  fst (metadata_ plain_object local_files)
  = Ok (<["mode" := VStr "raw"]>
       (<["size" := VInt 29]>
       (<["sha256sum" := VStr (sha256_hex base_txt)]>
          (raw_values "base.txt")))).
Proof. vm_compute. reflexivity. Qed.

Example gzip_metadata :
  fst (metadata_ gzip_object local_files)
  = Ok (<["mode" := VStr "raw"]>
       (<["size" := VInt 39]>
       (<["compressed" := VBool true]>
       (<["required-uncompressed-size" := VInt 29]>
       (<["sha256sum" := VStr (sha256_hex base_txt_gz)]>
          (raw_values "base.txt.gz")))))).
Proof. vm_compute. reflexivity. Qed.

End FixtureFacts.

Module Evaluated.
Import Fixture.
#[local] Existing Instance ext.

Lemma raw_loadable : loadable raw.
Proof.
  split.
  - exists (string_option "sha256sum" true VNone).
    split; [reflexivity|]. split; [repeat first [by left | right]|].
    by intros v [data ->].
  - exists (integer_option "size" true).
    split; [reflexivity|]. split; [repeat first [by left | right]|].
    intros v [n ->]. simpl.
    by rewrite (proj2 (Z.leb_le 0 (Z.of_nat n))) by lia.
Qed.

Lemma raw_accepts_filename (fn : string) :
  accepts raw "filename" (eq (VStr fn)).
Proof.
  exists (string_option "filename" false VNone).
  split; [reflexivity|]. split; [by left|]. by intros v <-.
Qed.

Lemma raw_options_NoDup : NoDup (metadata <$> options raw).
Proof. apply (bool_decide_unpack _). vm_compute. exact I. Qed.

Lemma plain_object_valid : valid plain_object.
Proof. split; [exact raw_options_NoDup | vm_compute; reflexivity]. Qed.

Lemma gzip_object_valid : valid gzip_object.
Proof. split; [exact raw_options_NoDup | vm_compute; reflexivity]. Qed.

Lemma pulled_object_valid : valid pulled_object.
Proof. split; [exact raw_options_NoDup | vm_compute; reflexivity]. Qed.

Lemma always_resolves (o : BaseObject) (fs : gmap string bytes) :
  by_metadata (_values o) !! "install-condition" = Some (VStr "always") ->
  install_condition_resolves o fs.
Proof.
  intros H. unfold install_condition_resolves, _metadata_install_condition.
  destruct (allow_install_condition (cls o)); simpl; [|by eexists].
  unfold pop. rewrite H. simpl. by eexists.
Qed.

Lemma metadata_has_fresh_hash_and_size_witness :
  exists md o1, metadata_ plain_object local_files = (Ok md, o1)
    /\ md !! "sha256sum" = Some (VStr (sha256_hex base_txt))
    /\ md !! "size" = Some (VInt (Z.of_nat (length base_txt))).
Proof.
  apply (metadata_has_fresh_hash_and_size plain_object local_files
           "base.txt" base_txt).
  - exact plain_object_valid.
  - exact raw_loadable.
  - vm_compute. reflexivity.
  - vm_compute. reflexivity.
  - left. reflexivity.
  - apply always_resolves. vm_compute. reflexivity.
Defined.

(** C6, as stated, fails: [zero_chunk_object] is what [__init__] makes
    of the options of [plain_object] when the chunk size is 0; its file is
    readable and is not empty, and its metadata holds the digest of the
    empty string. *)
Lemma empty_digest_at_chunk_size_zero :
  BaseObject_init (ext := chunk_env 0) raw (raw_values "base.txt")
  = Ok zero_chunk_object
  /\ chunk_size zero_chunk_object = 0
  /\ local_files !! "base.txt" = Some base_txt
  /\ metadata_key (ext := chunk_env 0) zero_chunk_object local_files
       "sha256sum" = Some (VStr (sha256_hex []))
  /\ String.eqb (sha256_hex []) (sha256_hex base_txt) = false.
Proof. repeat split; vm_compute; reflexivity. Qed.

(** An update the object rejects leaves the value behind (line 218 comes
    before line 224): the object is no more in a valid state, and its
    [metadata()] raises although its file is readable. *)
Lemma rejected_update_breaks_metadata :
  fst (update plain_object "volume" (VStr "system"))
  = Raise (ValueError "raw does not support an option")
  /\ exists_ (snd (update plain_object "volume" (VStr "system"))) local_files
     = Ok true
  /\ fst (metadata_ (snd (update plain_object "volume" (VStr "system")))
            local_files)
     = Raise (ValueError "raw does not support an option").
Proof. repeat split; vm_compute; reflexivity. Qed.

(** C8: [stale_object] is in a compression-allowing mode, its file is no
    recognized container, and its metadata holds both compression
    keys. *)
Lemma compression_keys_not_absent :
  BaseObject_init raw
    (<["compressed" := VBool true]>
       (<["required-uncompressed-size" := VInt 29]> (raw_values "base.txt")))
  = Ok stale_object
  /\ allow_compression (cls stale_object) = true
  /\ get_compressor_format local_files (VStr "base.txt") = None
  /\ metadata_key stale_object local_files "compressed" = Some (VBool true)
  /\ metadata_key stale_object local_files "required-uncompressed-size"
     = Some (VInt 29).
Proof. repeat split; vm_compute; reflexivity. Qed.

(** C9: [pulled_object] holds the compression keys a former
    serialization computed (they came back from the server as options);
    after [filename] is updated to the plain file the metadata still
    reports them. *)
Lemma compression_carried_over :
  metadata_key pulled_object local_files "compressed" = Some (VBool true)
  /\ get_compressor_format local_files (VStr "base.txt") = None
  /\ fst (update pulled_object "filename" (VStr "base.txt")) = Ok tt
  /\ metadata_key (snd (update pulled_object "filename" (VStr "base.txt")))
       local_files "compressed" = Some (VBool true)
  /\ metadata_key (snd (update pulled_object "filename" (VStr "base.txt")))
       local_files "required-uncompressed-size" = Some (VInt 29).
Proof. repeat split; vm_compute; reflexivity. Qed.

Lemma installation_set_index_rule_witness :
  (forall i, exists msg,
     manager_get (InstallationSetManager_init ActiveInactive) i None
     = Raise (TypeError msg))
  /\ (forall i, manager_get single_manager i (Some 0%nat)
                = manager_get single_manager i None).
Proof.
  split.
  - destruct (installation_set_index_rule
                (InstallationSetManager_init ActiveInactive))
      as [Hai _]; [reflexivity|].
    destruct Hai as (_ & Hget & _); [reflexivity|]. exact Hget.
  - destruct (installation_set_index_rule single_manager)
      as [_ Hsingle]; [reflexivity|].
    destruct Hsingle as (_ & _ & Hget & _); [reflexivity|]. exact Hget.
Defined.

(** C4, as stated, fails: a manager of the Single mode takes the explicit
    index 0, in [create] (the object gets position 0) as in [get]. *)
Lemma single_mode_takes_index_zero :
  fst (manager_create single_manager "raw" (raw_values "base.txt")
         (Some 0%nat)) = Ok 0%nat
  /\ manager_get
       (snd (manager_create single_manager "raw" (raw_values "base.txt")
               (Some 0%nat))) 0 (Some 0%nat)
     = Ok plain_object.
Proof. split; vm_compute; reflexivity. Qed.

Lemma download_existing_witness :
  download plain_object "http://localhost/packages/1/objects/2"
    (world refusing) = (Ok tt, world refusing).
Proof.
  apply (download_existing plain_object _ (world refusing) "base.txt"
           base_txt).
  - vm_compute. reflexivity.
  - vm_compute. reflexivity.
Defined.

Lemma pull_package_objects (o : BaseObject) :
  o ∈ all (objects pull_package) ->
  reads_the_file (chunk_size o) /\ addressable o.
Proof.
  intros Ho. change (o ∈ [equal_object; missing_object]) in Ho.
  apply elem_of_cons in Ho as [->|Ho];
    [|apply list_elem_of_singleton in Ho as ->].
  - split; [left; reflexivity|].
    exists "base.txt", (VStr (sha256_hex base_txt)).
    split; vm_compute; reflexivity.
  - split; [left; reflexivity|].
    exists "rootfs.bin", (VStr (sha256_hex served)).
    split; vm_compute; reflexivity.
Defined.

Lemma diverging_package_objects (o : BaseObject) :
  o ∈ all (objects diverging_package) ->
  reads_the_file (chunk_size o) /\ addressable o.
Proof.
  intros Ho. change (o ∈ [missing_object; diverging_object]) in Ho.
  apply elem_of_cons in Ho as [->|Ho];
    [|apply list_elem_of_singleton in Ho as ->].
  - split; [left; reflexivity|].
    exists "rootfs.bin", (VStr (sha256_hex served)).
    split; vm_compute; reflexivity.
  - split; [left; reflexivity|].
    exists "base.txt", (VStr (sha256_hex served)).
    split; vm_compute; reflexivity.
Defined.

Lemma pull_overwrite_protection_witness :
  get_download_list pull_package local_files = Ok [missing_object]
  /\ (exists fn,
        download_objects diverging_package "100" (world accepting)
        = (Raise (DownloadError (fn +:+ " will be overwritten")),
           world accepting))
  /\ (forall fn c, local_files !! fn = Some c ->
        files (snd (download_objects pull_package "100" (world accepting)))
          !! fn = Some c)
  /\ (exists l,
        sent (snd (download_objects pull_package "100" (world accepting)))
        = [] ++ l
        /\ Forall (fetch_of "100" [missing_object]) l)
  /\ exists_ missing_object
       (files (snd (download_objects pull_package "100" (world accepting))))
     = Ok true.
Proof.
  destruct (pull_overwrite_protection pull_package "100" (world accepting)
              pull_package_objects) as (Hequal & _ & _ & Hrun).
  destruct (pull_overwrite_protection diverging_package "100"
              (world accepting) diverging_package_objects)
    as (_ & _ & Hdiv & _).
  destruct (Hrun (fst (download_objects pull_package "100"
                         (world accepting)))
              (snd (download_objects pull_package "100" (world accepting))))
    as (Hkeep & (l & Hs & Hf & _) & Hthere); [apply surjective_pairing|].
  split; [|split; [|split; [|split]]].
  - etransitivity; [apply Hequal | vm_compute; reflexivity].
    intros o fn c Ho Hfn Hc.
    change (o ∈ [equal_object; missing_object]) in Ho.
    apply elem_of_cons in Ho as [->|Ho];
      [|apply list_elem_of_singleton in Ho as ->].
    + vm_compute in Hfn. injection Hfn as <-.
      vm_compute in Hc. injection Hc as <-.
      vm_compute. reflexivity.
    + vm_compute in Hfn. injection Hfn as <-.
      vm_compute in Hc. discriminate Hc.
  - destruct (Hdiv diverging_object "base.txt" base_txt)
      as (o' & fn' & c' & _ & _ & _ & _ & Hraise).
    + right. left.
    + vm_compute. reflexivity.
    + vm_compute. reflexivity.
    + vm_compute. discriminate.
    + exists fn'. exact Hraise.
  - exact Hkeep.
  - exists l. split; [exact Hs | exact Hf].
  - apply Hthere; [vm_compute; reflexivity|]. right. left.
Defined.

(** C3, as stated, fails: [zero_chunk_equal] is the object
    [Package.from_metadata] creates for [base.txt] when the chunk size
    is 0; the local file is there with the expected digest, and the
    download list is refused. *)
Lemma equal_file_refused_at_chunk_size_zero :
  BaseObject_init (ext := chunk_env 0) raw
    (pulled_values "base.txt" base_txt) = Ok zero_chunk_equal
  /\ chunk_size zero_chunk_equal = 0
  /\ local_files !! "base.txt" = Some base_txt
  /\ __getitem__ zero_chunk_equal "sha256sum"
     = Ok (VStr (sha256_hex base_txt))
  /\ get_download_list (ext := chunk_env 0) zero_chunk_pull local_files
     = Raise (DownloadError "base.txt will be overwritten").
Proof. repeat split; vm_compute; reflexivity. Qed.

Lemma string_option_idempotent name vol dflt m (v u : value) :
  validate (string_option name vol dflt) m v = Some u ->
  validate (string_option name vol dflt) m u = Some u /\ is_None u = false.
Proof. destruct v; simpl; try discriminate. by intros [= <-]. Qed.

Lemma integer_option_idempotent name vol m (v u : value) :
  validate (integer_option name vol) m v = Some u ->
  validate (integer_option name vol) m u = Some u /\ is_None u = false.
Proof.
  destruct v; simpl; try discriminate.
  destruct (0 <=? z) eqn:Hz; [|discriminate].
  intros [= <-]. simpl. by rewrite Hz.
Qed.

Lemma boolean_option_idempotent name vol m (v u : value) :
  validate (boolean_option name vol) m v = Some u ->
  validate (boolean_option name vol) m u = Some u /\ is_None u = false.
Proof. destruct v; simpl; try discriminate. by intros [= <-]. Qed.

Lemma raw_well_formed : well_formed raw.
Proof.
  split; [exact raw_options_NoDup|]. split; [|split].
  - intros x Hx. unfold raw in Hx. simpl in Hx.
    repeat (apply elem_of_cons in Hx as [->|Hx]; [done|]).
    by apply elem_of_nil in Hx.
  - intros x v u Hx. unfold raw in Hx. simpl in Hx.
    repeat (apply elem_of_cons in Hx as [->|Hx];
            [first [ apply string_option_idempotent
                   | apply integer_option_idempotent
                   | apply boolean_option_idempotent ]|]).
    by apply elem_of_nil in Hx.
  - intros x Hx. unfold raw in Hx. simpl in Hx.
    repeat (apply elem_of_cons in Hx as [->|Hx];
            [simpl; try discriminate; intros _; split; reflexivity|]).
    by apply elem_of_nil in Hx.
Qed.

Lemma template_round_trip_witness :
  exists o',
    BaseObject_init raw (delete "mode" (template plain_object)) = Ok o'
    /\ template o' = template plain_object.
Proof.
  destruct (template_round_trip raw (raw_values "base.txt") plain_object)
    as (_ & _ & o' & Hinit & _ & Htpl).
  - exact raw_well_formed.
  - vm_compute. reflexivity.
  - exists o'. split; [exact Hinit | exact Htpl].
Defined.

Lemma push_sequencing_witness :
  (exists msg p1 w1,
     push two_objects (world refusing) = (Raise (UploadError msg), p1, w1)
     /\ length (sent w1) = 1%nat)
  /\ (exists p1 w2,
        push two_objects (world flaky_storage)
        = (Raise (UploadError "Some objects has not been fully uploaded"),
           p1, w2)
        /\ uid p1 = Some "100").
Proof.
  split.
  - destruct (push_sequencing two_objects (world refusing)) as [Hrefused _].
    edestruct Hrefused as (e & w1 & Hpush & Hsent & Hjson).
    + vm_compute. reflexivity.
    + reflexivity.
    + vm_compute. reflexivity.
    + vm_compute. discriminate.
    + eexists. eexists. exists w1. split; [|by rewrite Hsent].
      rewrite Hpush. by rewrite (Hjson _ eq_refl).
  - destruct (push_sequencing two_objects (world flaky_storage))
      as [_ Hfailed].
    edestruct Hfailed as (Hpush & _).
    + vm_compute. reflexivity.
    + reflexivity.
    + vm_compute. reflexivity.
    + reflexivity.
    + reflexivity.
    + reflexivity.
    + vm_compute. reflexivity.
    + vm_compute. reflexivity.
    + by left.
    + eexists. eexists. split; [exact Hpush | reflexivity].
Defined.

(** C2, as stated, fails: the server answers the metadata upload with
    status 500 and a body that is no JSON document; [upload_metadata],
    and so [push], raises the decoding error, which is no upload
    error. *)
Lemma refusal_without_json_body :
  html_error [] (HTTP "POST" "http://localhost/packages" NoPayload)
  = Response html_500
  /\ status_code html_500 = 500
  /\ fst (fst (upload_metadata plain_package (world html_error)))
     = Raise JSONDecodeError
  /\ fst (fst (push plain_package (world html_error)))
     = Raise JSONDecodeError.
Proof. repeat split; vm_compute; reflexivity. Qed.

Lemma uid_assigned_only_after_201_witness :
  (exists msg p1 w1,
     upload_metadata plain_package (world refusing)
     = (Raise (UploadError msg), p1, w1)
     /\ uid p1 = uid plain_package)
  /\ (exists p1 w1,
        upload_metadata plain_package (world flaky_storage)
        = (Ok tt, p1, w1)
        /\ uid p1 = Some "100")
  /\ (exists md resp,
        flaky_storage [] (metadata_request md) = Response resp
        /\ status_code resp = 201).
Proof.
  split; [|split].
  - destruct (uid_assigned_only_after_201 plain_package (world refusing))
      as [_ Hanswered].
    edestruct Hanswered as (Hrefused & _).
    + vm_compute. reflexivity.
    + reflexivity.
    + vm_compute. reflexivity.
    + reflexivity.
    + destruct Hrefused as [Hraise Huid]; [vm_compute; discriminate|].
      eexists. eexists. eexists. split; [exact Hraise | exact Huid].
  - destruct (uid_assigned_only_after_201 plain_package
                (world flaky_storage)) as [_ Hanswered].
    edestruct Hanswered as (_ & Hstored & _).
    + vm_compute. reflexivity.
    + reflexivity.
    + vm_compute. reflexivity.
    + reflexivity.
    + eexists. eexists. split; [apply Hstored; reflexivity | reflexivity].
  - destruct (uid_assigned_only_after_201 plain_package
                (world flaky_storage)) as [Hany _].
    destruct (Hany (Ok tt)
                (snd (fst (upload_metadata plain_package
                             (world flaky_storage))))
                (snd (upload_metadata plain_package (world flaky_storage))))
      as (_ & _ & _ & Hok); [vm_compute; reflexivity|].
    destruct (Hok eq_refl)
      as (md & p1 & resp & body & u & _ & _ & Hsrv & Hst & _).
    exists md, resp. split; [exact Hsrv | exact Hst].
Defined.

(** C5, as stated, fails: the upload the server refuses leaves the uid
    alone but not the rest of the package state, its object has been
    loaded. *)
Lemma refused_upload_loads_objects :
  fst (fst (upload_metadata plain_package (world refusing)))
  = Raise (UploadError ("It was not possible to start pushing:" +:+ newline
                        +:+ "invalid version"))
  /\ (md5 <$> all (objects plain_package)) = [None]
  /\ ((fun o => by_metadata (_values o) !! "sha256sum")
        <$> all (objects plain_package)) = [None]
  /\ (md5 <$> all (objects
                    (snd (fst (upload_metadata plain_package
                                 (world refusing))))))
     = [Some "md5-of-7370616d"]
  /\ ((fun o => by_metadata (_values o) !! "sha256sum")
        <$> all (objects
                   (snd (fst (upload_metadata plain_package
                                (world refusing))))))
     = [Some (VStr (sha256_hex base_txt))].
Proof. repeat split; vm_compute; reflexivity. Qed.

End Evaluated.
